(** * gritaudit: the per-page audit pipeline of [scripts/run-audit.js]

    A shallow embedding of the audit script: the score normalisation of
    [runLighthouse], the page scanner [scanPage], the rule engine
    [prioritizeFindings], the HTML table of [renderHtmlReport], the webhook
    sink [postToGoogleSheets] and the driver [main] with its error
    propagation.

    JavaScript numbers are IEEE 754 binary64 values ([spec_float] at
    precision 53), [null] is [None], arrays are lists, objects used as
    dictionaries are [gmap string _], and a rejected promise or a thrown
    exception is the [Throw] case of [outcome]. *)

From Stdlib Require Import ZArith QArith Qround String Ascii List Lia DecimalString DecimalN.
From Stdlib Require Import Floats.SpecFloat Sorting.Sorted.
From stdpp Require Import base option list gmap strings.

Local Open Scope Z_scope.
Local Open Scope string_scope.

(** ** JavaScript numbers *)

Module JS.

Definition number := spec_float.

Definition prec : Z := 53.
Definition emax : Z := 1024.

(** An integer literal, and a decimal literal [p/q] (the parser yields the
    double nearest to the decimal, which is what a correctly rounded
    division of the two integers gives). *)
Definition of_Z (z : Z) : number := binary_normalize prec emax z 0 false.
Definition of_ratio (p q : positive) : number :=
  SFdiv prec emax (S754_finite false p 0) (S754_finite false q 0).

Definition zero : number := S754_zero false.

(** [a > b], [a * b]; every comparison with NaN is false. *)
Definition gt (a b : number) : bool := SFltb b a.
Definition lt (a b : number) : bool := SFltb a b.
Definition mul (a b : number) : number := SFmul prec emax a b.

(** ToBoolean on a number: [0], [-0] and [NaN] are falsy. *)
Definition truthy (x : number) : bool :=
  match x with
  | S754_zero _ | S754_nan => false
  | _ => true
  end.

(** [x || d] and [x ?? d] on a value that is a number, [null] or
    [undefined] ([None] stands for both nullish values). *)
Definition or_else (x : option number) (d : number) : number :=
  match x with
  | Some v => if truthy v then v else d
  | None => d
  end.

Definition nullish (x : option number) (d : number) : number :=
  match x with
  | Some v => v
  | None => d
  end.

(** [Math.round]: the nearest integer, ties towards +infinity, so
    [floor (x + 1/2)] on the exact value; a result of zero keeps the sign
    of the argument. *)
Definition Math_round (x : number) : number :=
  match x with
  | S754_finite s m (Zneg k) =>
      let d := Z.pow 2 (Zpos k) in
      let n := (2 * cond_Zopp s (Zpos m) + d) / (2 * d) in
      if Z.eqb n 0 then S754_zero s else of_Z n
  | _ => x
  end.

(** [Math.floor]: the largest integer not above the value. *)
Definition Math_floor (x : number) : number :=
  match x with
  | S754_finite s m (Zneg k) =>
      let n := cond_Zopp s (Zpos m) / Z.pow 2 (Zpos k) in
      if Z.eqb n 0 then S754_zero s else of_Z n
  | _ => x
  end.

(** *** Number to string *)

Definition digits (n : Z) : string := NilZero.string_of_uint (N.to_uint (Z.to_N n)).

(** The exact value of a positive finite double as a fraction. *)
Definition frac_of (m : positive) (e : Z) : Z * Z :=
  match e with
  | Zneg k => (Zpos m, Z.pow 2 (Zpos k))
  | _ => (Zpos m * Z.pow 2 e, 1)
  end.

(** The double nearest to [a / b], for [0 < a] and [0 < b]. *)
Definition nearest (a b : Z) : number :=
  match a, b with
  | Zpos p, Zpos q => of_ratio p q
  | _, _ => S754_nan
  end.

Definition same (x y : number) : bool := SFeqb x y.

(** The [n] with [10^(n-1) <= a/b < 10^n]. *)
Fixpoint up_exp (fuel : nat) (a b n : Z) : Z :=
  match fuel with
  | O => n
  | S f => if Z.leb (b * 10 ^ n) a then up_exp f a b (n + 1) else n
  end.

Fixpoint down_exp (fuel : nat) (a b n : Z) : Z :=
  match fuel with
  | O => n
  | S f => if Z.ltb (a * 10 ^ (- n + 1)) b then down_exp f a b (n - 1) else n
  end.

Definition dec_exp (a b : Z) : Z :=
  if Z.leb b a then up_exp 400 a b 1 else down_exp 400 a b 0.

(** [s * 10^t] as a fraction. *)
Definition scaled (s t : Z) : Z * Z :=
  match t with
  | Zneg k => (s, Z.pow 10 (Zpos k))
  | _ => (s * Z.pow 10 t, 1)
  end.

Definition reads_back (x : number) (s t : Z) : bool :=
  let '(p, q) := scaled s t in same (nearest p q) x.

(** Distance of [s * 10^t] to [a / b], over the common denominator. *)
Definition gap (a b s t : Z) : Z :=
  let '(p, q) := scaled s t in Z.abs (p * b - a * q).

(** The shortest digit string [s] (with [k] digits) and exponent [n] such
    that [s * 10^(n-k)] reads back as [x]; among several [s] of that
    length the one nearest to the value, the even one on a tie. *)
Definition pick (x : number) (a b n k : Z) : option (Z * Z * Z) :=
  let '(p, q) := scaled 1 (k - n) in
  let lo := (a * p) / (b * q) in
  let hi := lo + 1 in
  let ok_lo := reads_back x lo (n - k) in
  let ok_hi := Z.ltb hi (10 ^ k) && reads_back x hi (n - k) in
  let ok_up := Z.eqb k 1 && reads_back x 1 n in
  let best :=
    match ok_lo, ok_hi with
    | true, true =>
        match Z.compare (gap a b lo (n - k)) (gap a b hi (n - k)) with
        | Lt => Some lo
        | Gt => Some hi
        | Eq => Some (if Z.even lo then lo else hi)
        end
    | true, false => Some lo
    | false, true => Some hi
    | false, false => None
    end in
  match best with
  | Some s => Some (n, k, s)
  | None => if ok_up then Some (n + 1, 1, 1) else None
  end.

Fixpoint shortest (fuel : nat) (x : number) (a b n k : Z) : Z * Z * Z :=
  match fuel with
  | O => (n, k, (a * 10 ^ (k - n)) / b)
  | S f =>
      match pick x a b n k with
      | Some r => r
      | None => shortest f x a b n (k + 1)
      end
  end.

Definition zeros (n : Z) : string := String.concat "" (repeat "0" (Z.to_nat n)).

Definition string_take (n : Z) (s : string) : string := String.substring 0 (Z.to_nat n) s.
Definition string_drop (n : Z) (s : string) : string :=
  String.substring (Z.to_nat n) (String.length s - Z.to_nat n) s.

Definition layout (n k s : Z) : string :=
  let d := digits s in
  if Z.leb k n && Z.leb n 21 then d ++ zeros (n - k)
  else if Z.ltb 0 n && Z.leb n 21 then string_take n d ++ "." ++ string_drop n d
  else if Z.ltb (-6) n && Z.leb n 0 then "0." ++ zeros (- n) ++ d
  else
    let e := n - 1 in
    let sign := if Z.ltb e 0 then "-" else "+" in
    if Z.eqb k 1 then d ++ "e" ++ sign ++ digits (Z.abs e)
    else string_take 1 d ++ "." ++ string_drop 1 d ++ "e" ++ sign ++ digits (Z.abs e).

(** [Number::toString] in radix 10, as used by template literals. *)
Definition toString (x : number) : string :=
  match x with
  | S754_nan => "NaN"
  | S754_zero _ => "0"
  | S754_infinity s => if s then "-Infinity" else "Infinity"
  | S754_finite s m e =>
      let '(a, b) := frac_of m e in
      let '(n, k, d) := shortest 17 (S754_finite false m e) a b (dec_exp a b) 1 in
      (if s then "-" else "") ++ layout n k d
  end.

(** [x.toFixed(f)] for [0 <= f <= 100]. *)
Definition toFixed (x : number) (f : Z) : string :=
  match x with
  | S754_nan | S754_infinity _ => toString x
  | S754_zero _ => if Z.eqb f 0 then "0" else "0." ++ zeros f
  | S754_finite s m e =>
      let '(a, b) := frac_of m e in
      let sign := if s then "-" else "" in
      if Z.leb (b * 10 ^ 21) a then sign ++ toString (S754_finite false m e)
      else
        let n := (2 * a * 10 ^ f + b) / (2 * b) in
        let d := digits n in
        let k := Z.of_nat (String.length d) in
        let d := if Z.leb k f then zeros (f + 1 - k) ++ d else d in
        let k := Z.of_nat (String.length d) in
        sign ++ (if Z.eqb f 0 then d
                 else string_take (k - f) d ++ "." ++ string_drop (k - f) d)
  end.

(** An array length or other non-negative integer as a string. *)
Definition nat_toString (n : nat) : string := digits (Z.of_nat n).

End JS.

(** ** JavaScript strings

    A string is a sequence of code units; the model keeps the code units
    below 256 (one [ascii] each, read as Latin-1). *)

Module Str.

(** White space and line terminators, as [trim] strips them. *)
Definition is_white (c : ascii) : bool :=
  let n := nat_of_ascii c in
  ((9 <=? n) && (n <=? 13) || (n =? 32) || (n =? 160))%nat.

Fixpoint trimStart (s : string) : string :=
  match s with
  | String c s' => if is_white c then trimStart s' else s
  | EmptyString => EmptyString
  end.

(** [trimEnd]: a white character is dropped when nothing but white space
    follows it. *)
Fixpoint trimEnd (s : string) : string :=
  match s with
  | String c s' =>
      match trimEnd s' with
      | EmptyString => if is_white c then EmptyString else String c EmptyString
      | r => String c r
      end
  | EmptyString => EmptyString
  end.

Definition trim (s : string) : string := trimEnd (trimStart s).

Definition lower (c : ascii) : ascii :=
  let n := nat_of_ascii c in
  if ((65 <=? n) && (n <=? 90) || (192 <=? n) && (n <=? 222) && negb (n =? 215))%nat
  then ascii_of_nat (n + 32) else c.

Fixpoint toLowerCase (s : string) : string :=
  match s with
  | String c s' => String (lower c) (toLowerCase s')
  | EmptyString => EmptyString
  end.

(** ASCII case folding: only [A-Z] change. *)
Definition fold_case (c : ascii) : ascii :=
  let n := nat_of_ascii c in
  if ((65 <=? n) && (n <=? 90))%nat then ascii_of_nat (n + 32) else c.

Fixpoint fold (s : string) : string :=
  match s with
  | String c s' => String (fold_case c) (fold s')
  | EmptyString => EmptyString
  end.

(** [s.includes(t)] *)
Fixpoint includes (s t : string) : bool :=
  String.prefix t s ||
  match s with
  | String _ s' => includes s' t
  | EmptyString => false
  end.

Definition is_empty (s : string) : bool :=
  match s with
  | EmptyString => true
  | String _ _ => false
  end.

(** [s || d] on a string or [null]: the empty string is falsy. *)
Definition or_else (s : option string) (d : string) : string :=
  match s with
  | Some v => if is_empty v then d else v
  | None => d
  end.

End Str.

(** ** The document tree

    What [new JSDOM(html).window.document] hands to the scanner: elements
    with lower-case tag and attribute names, text and comments. *)

Module Dom.

#[warnings="-register-all"]
Inductive Node :=
| Element (tagName : string) (attributes : list (string * string)) (childNodes : list Node)
| Text (data : string)
| Comment (data : string).

(** A document is the list of its children; [body] is [document.body]. *)
Record Document := { children : list Node }.

Definition is_element (n : Node) : bool :=
  match n with
  | Element _ _ _ => true
  | _ => false
  end.

Definition has_tag (t : string) (n : Node) : bool :=
  match n with
  | Element t' _ _ => String.eqb t t'
  | _ => false
  end.

Fixpoint lookup_attr (name : string) (attrs : list (string * string)) : option string :=
  match attrs with
  | (k, v) :: rest => if String.eqb k name then Some v else lookup_attr name rest
  | [] => None
  end.

(** [el.getAttribute(name)]: [null] when the attribute is not there. *)
Definition getAttribute (n : Node) (name : string) : option string :=
  match n with
  | Element _ attrs _ => lookup_attr name attrs
  | _ => None
  end.

(** [node.textContent]: the text of all descendants, in tree order. *)
Fixpoint textContent (n : Node) : string :=
  match n with
  | Element _ _ kids => String.concat "" (List.map textContent kids)
  | Text d => d
  | Comment _ => ""
  end.

Definition body (d : Document) : option Node :=
  match List.find is_element (children d) with
  | Some (Element "html" _ kids) =>
      List.find (fun k => has_tag "body" k || has_tag "frameset" k) kids
  | _ => None
  end.

(** *** The selectors the scanner uses

    A selector list of complex selectors; a complex selector is a compound
    ([tag[attr...]]) or a compound below an ancestor compound ([A B]). *)

Inductive attr_test :=
| AttrEquals (name value : string)      (* [name='value'] *)
| AttrContains (name value : string).   (* [name*='value'] *)

Record compound := { sel_tag : string; sel_attrs : list attr_test }.

Inductive complex :=
| Only (c : compound)
| Below (ancestor c : compound).

Definition selector := list complex.

(** In an HTML document the value of [type] (and of a few other
    attributes, none of them used here besides) is matched without regard
    to ASCII case. *)
Definition value_key (name v : string) : string :=
  if String.eqb name "type" then Str.fold v else v.

Definition attr_holds (n : Node) (t : attr_test) : bool :=
  match t with
  | AttrEquals name v =>
      match getAttribute n name with
      | Some a => String.eqb (value_key name a) (value_key name v)
      | None => false
      end
  | AttrContains name v =>
      match getAttribute n name with
      | Some a => negb (Str.is_empty v) && Str.includes (value_key name a) (value_key name v)
      | None => false
      end
  end.

Definition matches_compound (c : compound) (n : Node) : bool :=
  has_tag (sel_tag c) n && forallb (attr_holds n) (sel_attrs c).

Definition matches_complex (ancestors : list Node) (n : Node) (c : complex) : bool :=
  match c with
  | Only c => matches_compound c n
  | Below a c => matches_compound c n && existsb (matches_compound a) ancestors
  end.

Definition matches (s : selector) (ancestors : list Node) (n : Node) : bool :=
  existsb (matches_complex ancestors n) s.

(** The descendants-or-self of [n] that match, in tree order; [ancestors]
    are the elements above [n], nearest first. *)
Fixpoint select (s : selector) (ancestors : list Node) (n : Node) : list Node :=
  match n with
  | Element _ _ kids =>
      (if matches s ancestors n then [n] else []) ++
      List.flat_map (select s (n :: ancestors)) kids
  | _ => []
  end.

Definition querySelectorAll (d : Document) (s : selector) : list Node :=
  List.flat_map (select s []) (children d).

(** [querySelector]: the first match or [null]. *)
Definition querySelector (d : Document) (s : selector) : option Node :=
  List.head (querySelectorAll d s).

End Dom.

(** ** Data model *)

(** [{ performance, accessibility, bestPractices, seo }] *)
Record Scores := {
  performance : JS.number;
  accessibility : JS.number;
  bestPractices : JS.number;
  seo : JS.number
}.

(** [{ lcp_ms, cls, tbt_ms, speedIndex_ms }], each a number or [null]. *)
Record Metrics := {
  lcp_ms : option JS.number;
  cls : option JS.number;
  tbt_ms : option JS.number;
  speedIndex_ms : option JS.number
}.

Record ScoreReport := { scores : Scores; metrics : Metrics }.

Record ImageRecord := {
  src : string;
  alt : option string;
  width : option string;
  height : option string;
  loading : option string
}.

Record ScanResult := {
  imageCount : nat;
  missingAltCount : nat;
  lazyCount : nat;
  hasSearch : bool;
  hasAddToCart : bool;
  hasPrice : bool;
  hasShippingText : bool;
  images : list ImageRecord
}.

Record Finding := {
  severity : string;
  type : string;
  recommendation : string
}.

Record PageRecord := {
  url : string;
  mobile : ScoreReport;
  desktop : ScoreReport;
  scan : ScanResult;
  findings : list Finding
}.

Record AuditReport := {
  generatedAt : string;
  pages : list PageRecord
}.

(** ** Page scanner: the part of [scanPage] after the document is built *)

(** ["img"] *)
Definition sel_img : Dom.selector :=
  [Dom.Only {| Dom.sel_tag := "img"; Dom.sel_attrs := [] |}].

(** ['form[action*="search"], input[type="search"], input[name="q"]'] *)
Definition sel_search : Dom.selector :=
  [Dom.Only {| Dom.sel_tag := "form"; Dom.sel_attrs := [Dom.AttrContains "action" "search"] |};
   Dom.Only {| Dom.sel_tag := "input"; Dom.sel_attrs := [Dom.AttrEquals "type" "search"] |};
   Dom.Only {| Dom.sel_tag := "input"; Dom.sel_attrs := [Dom.AttrEquals "name" "q"] |}].

(** ["form[action*='cart/add'] button, button[name='add'], button[type='submit']"] *)
Definition sel_add_to_cart : Dom.selector :=
  [Dom.Below {| Dom.sel_tag := "form"; Dom.sel_attrs := [Dom.AttrContains "action" "cart/add"] |}
             {| Dom.sel_tag := "button"; Dom.sel_attrs := [] |};
   Dom.Only {| Dom.sel_tag := "button"; Dom.sel_attrs := [Dom.AttrEquals "name" "add"] |};
   Dom.Only {| Dom.sel_tag := "button"; Dom.sel_attrs := [Dom.AttrEquals "type" "submit"] |}].

Definition image_of (img : Dom.Node) : ImageRecord :=
  {| src := Str.or_else (Dom.getAttribute img "src") "";
     alt := Dom.getAttribute img "alt";
     width := Dom.getAttribute img "width";
     height := Dom.getAttribute img "height";
     loading := Dom.getAttribute img "loading" |}.

(** [i.alt === null || i.alt.trim() === ""] *)
Definition alt_missing (i : ImageRecord) : bool :=
  match alt i with
  | None => true
  | Some a => String.eqb (Str.trim a) ""
  end.

(** [(i.loading || "").toLowerCase() === "lazy"] *)
Definition is_lazy (i : ImageRecord) : bool :=
  String.eqb (Str.toLowerCase (Str.or_else (loading i) "")) "lazy".

(** [(b.textContent || "").trim().toLowerCase()] *)
Definition button_text (b : Dom.Node) : string :=
  Str.toLowerCase (Str.trim (Str.or_else (Some (Dom.textContent b)) "")).

(** [/\$[\d,.]+/.test(s)] *)
Definition price_char (c : ascii) : bool :=
  let n := nat_of_ascii c in
  ((48 <=? n) && (n <=? 57) || (n =? 44) || (n =? 46))%nat.

Fixpoint test_price (s : string) : bool :=
  match s with
  | String c s' =>
      match s' with
      | String c' _ => Ascii.eqb c "$" && price_char c' || test_price s'
      | EmptyString => false
      end
  | EmptyString => false
  end.

(** [/(shipping|returns|money[- ]back|guarantee)/i.test(s)]: the letters of
    the pattern are ASCII, so ignoring case only concerns [A-Z]. *)
Definition test_shipping (s : string) : bool :=
  let t := Str.fold s in
  Str.includes t "shipping" || Str.includes t "returns" ||
  Str.includes t "money-back" || Str.includes t "money back" ||
  Str.includes t "guarantee".

(** [doc.body?.textContent || ""] *)
Definition body_text (doc : Dom.Document) : string :=
  Str.or_else (option_map Dom.textContent (Dom.body doc)) "".

Definition scanDocument (doc : Dom.Document) : ScanResult :=
  let images := List.map image_of (Dom.querySelectorAll doc sel_img) in
  let missingAltCount := length (List.filter alt_missing images) in
  let lazyCount := length (List.filter is_lazy images) in
  let hasSearch :=
    match Dom.querySelector doc sel_search with Some _ => true | None => false end in
  let addToCartButtons := List.map button_text (Dom.querySelectorAll doc sel_add_to_cart) in
  let hasAddToCart :=
    existsb (fun t => Str.includes t "add" && Str.includes t "cart") addToCartButtons
    || (0 <? length addToCartButtons)%nat in
  let hasPrice := test_price (body_text doc) in
  let hasShippingText := test_shipping (body_text doc) in
  {| imageCount := length images;
     missingAltCount := missingAltCount;
     lazyCount := lazyCount;
     hasSearch := hasSearch;
     hasAddToCart := hasAddToCart;
     hasPrice := hasPrice;
     hasShippingText := hasShippingText;
     images := List.firstn 40 images |}.

(** ** Findings engine *)

(** [findings.push(x)] *)
Definition push {A} (arr : list A) (x : A) : list A := arr ++ [x].

(** [Math.floor(n * 0.5)] for an array length [n]: lengths are integers
    below 2^32 and [0.5] is a power of two, so the product and its floor
    are exact in binary64 and the exact rational value is used. *)
Definition floor_half (n : nat) : Z := Qfloor (inject_Z (Z.of_nat n) * (1 # 2)).

Definition performance_finding (lcp : JS.number) : Finding :=
  {| severity := "HIGH";
     type := "Performance";
     recommendation :=
       "Mobile LCP is " ++ JS.toString (JS.Math_round lcp) ++
       "ms. Compress/resize above-the-fold images and reduce heavy sections. Target < 2500ms." |}.

Definition layout_finding (c : JS.number) : Finding :=
  {| severity := "MED";
     type := "UX / Layout";
     recommendation :=
       "Mobile CLS is " ++ JS.toFixed c 3 ++
       ". Ensure images have width/height set; avoid late-loading banners/popups pushing content. Target < 0.10." |}.

Definition alt_finding (scan : ScanResult) : Finding :=
  {| severity := "MED";
     type := "Accessibility / SEO";
     recommendation :=
       JS.nat_toString (missingAltCount scan) ++
       " images are missing alt text. Add descriptive alt text (especially on product/collection images)." |}.

Definition images_finding (scan : ScanResult) : Finding :=
  {| severity := "MED";
     type := "Images";
     recommendation :=
       "Many images (" ++ JS.nat_toString (imageCount scan) ++ ") but only " ++
       JS.nat_toString (lazyCount scan) ++
       " lazy-loaded. Consider enabling lazy-loading for below-the-fold images." |}.

Definition trust_finding : Finding :=
  {| severity := "LOW";
     type := "Trust / Conversion";
     recommendation :=
       "Page appears to have Add-to-Cart but little visible shipping/returns/guarantee text. Consider adding a short trust row near the ATC (shipping + guarantee)." |}.

Definition prioritizeFindings (lhMobile : ScoreReport) (scan : ScanResult) : list Finding :=
  let findings := [] in
  let findings :=
    match lcp_ms (metrics lhMobile) with
    | Some v => if JS.gt v (JS.of_Z 3500) then push findings (performance_finding v) else findings
    | None => findings
    end in
  let findings :=
    match cls (metrics lhMobile) with
    | Some v => if JS.gt v (JS.of_ratio 1 10) then push findings (layout_finding v) else findings
    | None => findings
    end in
  let findings :=
    if (0 <? missingAltCount scan)%nat then push findings (alt_finding scan) else findings in
  let findings :=
    if (25 <? imageCount scan)%nat && (Z.of_nat (lazyCount scan) <? floor_half (imageCount scan))%Z
    then push findings (images_finding scan) else findings in
  let findings :=
    if hasAddToCart scan && negb (hasShippingText scan)
    then push findings trust_finding else findings in
  findings.

(** ** Thrown errors and rejected promises *)

Definition Error := string.

Inductive outcome (A : Type) :=
| Ok (a : A)
| Throw (e : Error).
Arguments Ok {A} a.
Arguments Throw {A} e.

Definition obind {A B} (o : outcome A) (k : A -> outcome B) : outcome B :=
  match o with
  | Ok a => k a
  | Throw e => Throw e
  end.

Notation "'let?' x ':=' o 'in' k" := (obind o (fun x => k))
  (at level 10, x pattern, o at level 100, k at level 200).

(** [try { body } finally { cleanup }]: an error of the cleanup replaces
    the result of the body. *)
Definition finally {A} (body : outcome A) (cleanup : outcome unit) : outcome A :=
  match cleanup with
  | Ok _ => body
  | Throw e => Throw e
  end.

Definition failed {A} (o : outcome A) : bool :=
  match o with
  | Ok _ => false
  | Throw _ => true
  end.

(** ** Scorer adapter *)

(** The part of the Lighthouse result ([lhr]) the adapter reads: a
    category's [score] is a number or [null]; an audit may be missing and
    its [numericValue] may be [undefined]. *)
Record Category := { score : option JS.number }.
Record Audit := { numericValue : option JS.number }.
Record LHR := {
  categories : gmap string Category;
  audits : gmap string Audit
}.

(** What [runLighthouse] returns: [{ scores, metrics, report: lhr }]. *)
Record LighthouseRun := { summary : ScoreReport; report : LHR }.

(** [lhr.categories[name].score]: reading [score] of a missing category is
    a TypeError. *)
Definition category_score (lhr : LHR) (name : string) : outcome (option JS.number) :=
  match categories lhr !! name with
  | Some c => Ok (score c)
  | None => Throw "TypeError: Cannot read properties of undefined (reading 'score')"
  end.

(** [Math.round((score || 0) * 100)] *)
Definition percent (score : option JS.number) : JS.number :=
  JS.Math_round (JS.mul (JS.or_else score JS.zero) (JS.of_Z 100)).

(** [lhr.audits[name]?.numericValue ?? null] *)
Definition metric (lhr : LHR) (name : string) : option JS.number :=
  match audits lhr !! name with
  | Some a => numericValue a
  | None => None
  end.

Definition normalize (lhr : LHR) : outcome LighthouseRun :=
  let? p := category_score lhr "performance" in
  let? a := category_score lhr "accessibility" in
  let? b := category_score lhr "best-practices" in
  let? s := category_score lhr "seo" in
  let scores :=
    {| performance := percent p;
       accessibility := percent a;
       bestPractices := percent b;
       seo := percent s |} in
  let metrics :=
    {| lcp_ms := metric lhr "largest-contentful-paint";
       cls := metric lhr "cumulative-layout-shift";
       tbt_ms := metric lhr "total-blocking-time";
       speedIndex_ms := metric lhr "speed-index" |} in
  Ok {| summary := {| scores := scores; metrics := metrics |}; report := lhr |}.

(** ** The outside world of one run

    Every call the script makes to a collaborator gets its result from
    here.  Calls made for a page are keyed by the position of the page in
    [PAGES] and by its URL. *)
Record World := {
  (** [new Date().toISOString()] *)
  nowISO : string;
  (** [launch({chromeFlags})], [lighthouse(url, flags)] and [chrome.kill()]
      of the call [runLighthouse(url, formFactor)] *)
  launch : nat -> string -> string -> outcome unit;
  lighthouse : nat -> string -> string -> outcome LHR;
  kill : nat -> string -> string -> outcome unit;
  (** [fetch(url, { redirect: "follow" })] followed by [res.text()] *)
  fetch_text : nat -> string -> outcome string;
  (** [new JSDOM(html, { url }).window.document] *)
  JSDOM : string -> string -> Dom.Document;
  (** the time at which the k-th promise given to [Promise.all] for a page
      settles *)
  settles : nat -> nat -> nat;
  (** the k-th [fs.mkdirSync(dir, { recursive: true })] *)
  mkdir : nat -> outcome unit;
  (** [fs.writeFileSync(path, data)] *)
  write : string -> outcome unit;
  (** [fetch(GOOGLE_SHEETS_WEBHOOK_URL, { method: "POST", ... })] *)
  post : outcome unit
}.

Definition runLighthouse (w : World) (i : nat) (url formFactor : string)
  : outcome LighthouseRun :=
  let? chrome := launch w i url formFactor in
  finally
    (let? lhr := lighthouse w i url formFactor in normalize lhr)
    (kill w i url formFactor).

Definition scanPage (w : World) (i : nat) (url : string) : outcome ScanResult :=
  let? html := fetch_text w i url in
  Ok (scanDocument (JSDOM w html url)).

(** [Promise.all([a, b, c])]: fulfilled with the three values in
    positional order, or rejected with the reason of the promise that
    rejects first. *)
Definition rejection {A} (time : nat) (o : outcome A) : list (nat * Error) :=
  match o with
  | Ok _ => []
  | Throw e => [(time, e)]
  end.

Fixpoint first_rejection (l : list (nat * Error)) : Error :=
  match l with
  | [] => ""
  | (t, e) :: rest =>
      if forallb (fun r => (t <=? fst r)%nat) rest then e else first_rejection rest
  end.

Definition Promise_all {A B C} (time : nat -> nat)
    (a : outcome A) (b : outcome B) (c : outcome C) : outcome (A * B * C) :=
  match a, b, c with
  | Ok x, Ok y, Ok z => Ok (x, y, z)
  | _, _, _ =>
      Throw (first_rejection (rejection (time 0%nat) a ++ rejection (time 1%nat) b ++
                              rejection (time 2%nat) c))
  end.

(** ** Renderers *)

Definition dquote : string := String (ascii_of_nat 34) "".

(** U+2014, as the three bytes the report file holds for it. *)
Definition em_dash : string :=
  String (ascii_of_nat 226) (String (ascii_of_nat 128) (String (ascii_of_nat 148) "")).

(** [Math.round(p.mobile.metrics.lcp_ms ?? 0)] and
    [(p.mobile.metrics.cls ?? 0).toFixed(3)], as interpolated. *)
Definition lcp_cell (p : PageRecord) : string :=
  JS.toString (JS.Math_round (JS.nullish (lcp_ms (metrics (mobile p))) JS.zero)).

Definition cls_cell (p : PageRecord) : string :=
  JS.toFixed (JS.nullish (cls (metrics (mobile p))) JS.zero) 3.

Definition render_row (p : PageRecord) : string :=
  "
    <tr>
      <td>" ++ url p ++ "</td>
      <td>" ++ JS.toString (performance (scores (mobile p))) ++ "</td>
      <td>" ++ JS.toString (accessibility (scores (mobile p))) ++ "</td>
      <td>" ++ JS.toString (bestPractices (scores (mobile p))) ++ "</td>
      <td>" ++ JS.toString (seo (scores (mobile p))) ++ "</td>
      <td>" ++ lcp_cell p ++ "</td>
      <td>" ++ cls_cell p ++ "</td>
    </tr>
  ".

Definition render_finding (p : PageRecord) (f : Finding) : string :=
  "<li><b>[" ++ severity f ++ "]</b> " ++ url p ++ " " ++ em_dash ++ " " ++
  type f ++ ": " ++ recommendation f ++ "</li>".

Definition renderHtmlReport (report : AuditReport) : string :=
  let rows := String.concat "" (List.map render_row (pages report)) in
  let findings :=
    String.concat ""
      (List.map (fun p => String.concat "" (List.map (render_finding p) (findings p)))
                (pages report)) in
  "<!doctype html>
<html>
<head>
  <meta charset=" ++ dquote ++ "utf-8" ++ dquote ++ " />
  <title>GritAudit Weekly Report</title>
  <style>
    body { font-family: Arial, sans-serif; margin: 24px; }
    table { border-collapse: collapse; width: 100%; margin-top: 12px; }
    th, td { border: 1px solid #ddd; padding: 8px; font-size: 14px; }
    th { background: #f6f6f6; text-align: left; }
    .small { color:#555; font-size: 13px; }
  </style>
</head>
<body>
  <h1>GritAudit Weekly Report</h1>
  <div class=" ++ dquote ++ "small" ++ dquote ++ ">Generated: " ++ generatedAt report ++ "</div>

  <h2>Summary Table (Mobile)</h2>
  <table>
    <thead>
      <tr>
        <th>URL</th>
        <th>Perf</th>
        <th>A11y</th>
        <th>BP</th>
        <th>SEO</th>
        <th>LCP (ms)</th>
        <th>CLS</th>
      </tr>
    </thead>
    <tbody>" ++ rows ++ "</tbody>
  </table>

  <h2>Prioritized Recommendations</h2>
  <ul>" ++ Str.or_else (Some findings) "<li>No major issues flagged by rules this run.</li>" ++ "</ul>

</body>
</html>".

(** One row of the webhook payload. *)
Module Sheet.
Record Row := {
  date : string;
  url : string;
  perf_mobile : JS.number;
  a11y_mobile : JS.number;
  bp_mobile : JS.number;
  seo_mobile : JS.number;
  lcp_ms : option JS.number;
  cls : option JS.number;
  key_findings : string
}.
End Sheet.

Definition sheet_row (report : AuditReport) (p : PageRecord) : Sheet.Row :=
  {| Sheet.date := generatedAt report;
     Sheet.url := url p;
     Sheet.perf_mobile := performance (scores (mobile p));
     Sheet.a11y_mobile := accessibility (scores (mobile p));
     Sheet.bp_mobile := bestPractices (scores (mobile p));
     Sheet.seo_mobile := seo (scores (mobile p));
     Sheet.lcp_ms := lcp_ms (metrics (mobile p));
     Sheet.cls := cls (metrics (mobile p));
     Sheet.key_findings :=
       String.concat " | "
         (List.map (fun f => "[" ++ severity f ++ "] " ++ type f) (List.firstn 2 (findings p))) |}.

(** ** The run: observable effects and the mutable report *)

(** What is handed to [fs.writeFileSync] or sent as a request body; the
    JSON text of a value is represented by the value. *)
Inductive Data :=
| JsonReport (report : AuditReport)    (* JSON.stringify(report, null, 2) *)
| JsonRows (rows : list Sheet.Row)     (* JSON.stringify({ rows }) *)
| Html (text : string).

Inductive Event :=
| ConsoleLog (args : list string)
| ConsoleError (args : list string)
| Mkdir (path : string)
| WriteFile (path : string) (data : Data)
| Post (url : string) (body : Data).

(** [report.pages] while the loop of [main] fills it, and the effects so
    far. *)
Record State := { st_pages : list PageRecord; st_trace : list Event }.

Definition M (A : Type) : Type := State -> outcome A * State.

Definition ret {A} (a : A) : M A := fun s => (Ok a, s).

Definition bind {A B} (m : M A) (k : A -> M B) : M B :=
  fun s =>
    match m s with
    | (Ok a, s') => k a s'
    | (Throw e, s') => (Throw e, s')
    end.

Notation "'let*' x ':=' m 'in' k" := (bind m (fun x => k))
  (at level 10, x pattern, m at level 100, k at level 200).

(** [await p] / the result of a call that may throw *)
Definition await {A} (o : outcome A) : M A := fun s => (o, s).

Definition emit (e : Event) : M unit :=
  fun s => (Ok tt, {| st_pages := st_pages s; st_trace := st_trace s ++ [e] |}).

Definition push_page (p : PageRecord) : M unit :=
  fun s => (Ok tt, {| st_pages := push (st_pages s) p; st_trace := st_trace s |}).

Definition read_pages : M (list PageRecord) := fun s => (Ok (st_pages s), s).

(** [try { body } catch (e) { handler(e) }] *)
Definition try_catch {A} (body : M A) (handler : Error -> M A) : M A :=
  fun s =>
    match body s with
    | (Ok a, s') => (Ok a, s')
    | (Throw e, s') => handler e s'
    end.

(** [for (const x of xs) body(x)], with the position of [x]. *)
Fixpoint for_of (i : nat) (xs : list string) (body : nat -> string -> M unit) : M unit :=
  match xs with
  | [] => ret tt
  | x :: rest => let* _ := body i x in for_of (S i) rest body
  end.

(** What [config.js] exports. *)
Record Config := { PAGES : list string; GOOGLE_SHEETS_WEBHOOK_URL : string }.

(** [config.js] itself, given [process.env.GS_WEBHOOK_URL]. *)
Definition config_js (GS_WEBHOOK_URL : option string) : Config :=
  {| PAGES :=
       ["https://gritarmy.com/";
        "https://gritarmy.com/collections/socks";
        "https://gritarmy.com/cart";
        "https://gritarmy.com/products/high-compression-socks-adult";
        "https://gritarmy.com/products/premium-athletic-crew-socks";
        "https://gritarmy.com/products/grit-army-trifecta"];
     GOOGLE_SHEETS_WEBHOOK_URL := Str.or_else GS_WEBHOOK_URL "" |}.

Definition OUT_DIR : string := "out".

Definition path_join (dir file : string) : string := dir ++ "/" ++ file.

Definition mkdirSync (w : World) (k : nat) (dir : string) : M unit :=
  let* _ := await (mkdir w k) in emit (Mkdir dir).

Definition writeFileSync (w : World) (path : string) (data : Data) : M unit :=
  let* _ := await (write w path) in emit (WriteFile path data).

Definition postToGoogleSheets (cfg : Config) (w : World) (rows : list Sheet.Row) : M unit :=
  if Str.is_empty (GOOGLE_SHEETS_WEBHOOK_URL cfg) then ret tt
  else
    try_catch
      (let* _ := emit (Post (GOOGLE_SHEETS_WEBHOOK_URL cfg) (JsonRows rows)) in
       await (post w))
      (fun e => emit (ConsoleError ["Google Sheets webhook error:"; e])).

Definition audit_page (w : World) (i : nat) (url : string) : M unit :=
  let* _ := emit (ConsoleLog ["Auditing:"; url]) in
  let* (lhMobile, lhDesktop, scan) :=
    await (Promise_all (settles w i)
             (runLighthouse w i url "mobile")
             (runLighthouse w i url "desktop")
             (scanPage w i url)) in
  let findings := prioritizeFindings (summary lhMobile) scan in
  push_page {| url := url;
               mobile := {| scores := scores (summary lhMobile);
                            metrics := metrics (summary lhMobile) |};
               desktop := {| scores := scores (summary lhDesktop);
                             metrics := metrics (summary lhDesktop) |};
               scan := scan;
               findings := findings |}.

Definition main (cfg : Config) (w : World) : M unit :=
  let generatedAt := nowISO w in
  let* _ := for_of 0 (PAGES cfg) (audit_page w) in
  let* _ := mkdirSync w 1 "out" in
  let* pages := read_pages in
  let report := {| generatedAt := generatedAt; pages := pages |} in
  let* _ := writeFileSync w (path_join OUT_DIR "gritaudit-report.json") (JsonReport report) in
  let* _ := writeFileSync w (path_join OUT_DIR "gritaudit-report.html")
              (Html (renderHtmlReport report)) in
  let sheetRows := List.map (sheet_row report) (pages) in
  let* _ := postToGoogleSheets cfg w sheetRows in
  emit (ConsoleLog ["Done. Reports in /out"]).

(** The whole script: the directory is made when the module loads, then
    [main().catch(err => { console.error(err); process.exit(1); })]; a
    process that ends without [process.exit] has exit code 0, and an error
    thrown while the module loads ends it with code 1. *)
Record Run := { final : State; exit_code : Z }.

Definition script (cfg : Config) (w : World) : Run :=
  let start := {| st_pages := []; st_trace := [] |} in
  match mkdirSync w 0 OUT_DIR start with
  | (Throw e, s) => {| final := s; exit_code := 1 |}
  | (Ok _, s) =>
      match main cfg w s with
      | (Ok _, s') => {| final := s'; exit_code := 0 |}
      | (Throw err, s') =>
          {| final := snd (emit (ConsoleError [err]) s'); exit_code := 1 |}
      end
  end.


(** * Specification vocabulary and sample inputs *)

(** ** The rule table of the findings engine, as the specification words it *)

Definition present_above (x : option JS.number) (limit : JS.number) : bool :=
  match x with
  | Some v => JS.gt v limit
  | None => false
  end.

Definition performance_rule (m : ScoreReport) (s : ScanResult) : bool :=
  present_above (lcp_ms (metrics m)) (JS.of_Z 3500).

Definition layout_rule (m : ScoreReport) (s : ScanResult) : bool :=
  present_above (cls (metrics m)) (JS.of_ratio 1 10).

Definition alt_rule (m : ScoreReport) (s : ScanResult) : bool :=
  (0 <? missingAltCount s)%nat.

Definition images_rule (m : ScoreReport) (s : ScanResult) : bool :=
  (25 <? imageCount s)%nat && (lazyCount s <? imageCount s / 2)%nat.

Definition trust_rule (m : ScoreReport) (s : ScanResult) : bool :=
  hasAddToCart s && negb (hasShippingText s).

(** Severity and type of each rule's finding, in rule order. *)
Definition rules : list (string * string * (ScoreReport -> ScanResult -> bool)) :=
  [("HIGH", "Performance", performance_rule);
   ("MED", "UX / Layout", layout_rule);
   ("MED", "Accessibility / SEO", alt_rule);
   ("MED", "Images", images_rule);
   ("LOW", "Trust / Conversion", trust_rule)].

Definition label (f : Finding) : string * string := (severity f, type f).

Definition has_type (t : string) (l : list Finding) : bool :=
  existsb (fun f => String.eqb (type f) t) l.

(** A mobile report with the given LCP and CLS. *)
Definition report_with (lcp c : option JS.number) : ScoreReport :=
  {| scores := {| performance := JS.zero; accessibility := JS.zero;
                  bestPractices := JS.zero; seo := JS.zero |};
     metrics := {| lcp_ms := lcp; cls := c; tbt_ms := None; speedIndex_ms := None |} |}.

(** A slow, shifting page with many images, and a fast page with none. *)
Definition slow_report : ScoreReport :=
  report_with (Some (JS.of_ratio 40016 10)) (Some (JS.of_ratio 25 100)).

Definition heavy_scan : ScanResult :=
  {| imageCount := 26; missingAltCount := 3; lazyCount := 12; hasSearch := false;
     hasAddToCart := true; hasPrice := true; hasShippingText := false; images := [] |}.

Definition fast_report : ScoreReport :=
  report_with (Some (JS.of_Z 1000)) (Some (JS.of_ratio 1 100)).

Definition bare_scan : ScanResult :=
  {| imageCount := 0; missingAltCount := 0; lazyCount := 0; hasSearch := false;
     hasAddToCart := false; hasPrice := false; hasShippingText := false; images := [] |}.

(** ** The page scanner *)

(** The full image inventory of a document, before truncation. *)
Definition inventory (doc : Dom.Document) : list ImageRecord :=
  List.map image_of (Dom.querySelectorAll doc sel_img).

(** An image with alt text: the attribute is there and is not blank. *)
Definition alt_present (i : ImageRecord) : bool :=
  match alt i with
  | Some a => negb (Str.is_empty (Str.trim a))
  | None => false
  end.

(** An image whose [alt] attribute is there and holds at least one
    character, and one whose [alt] holds white space only. *)
Definition alt_given (i : ImageRecord) : bool :=
  match alt i with
  | Some a => negb (Str.is_empty a)
  | None => false
  end.

Definition alt_blank (i : ImageRecord) : bool := alt_given i && alt_missing i.

(** The add-to-cart signal over a set of matched buttons: some text has
    both words, or there is a matched button at all. *)
Definition signal (buttons : list Dom.Node) : bool :=
  let texts := List.map button_text buttons in
  existsb (fun t => Str.includes t "add" && Str.includes t "cart") texts
  || (0 <? length texts)%nat.

(** The signal as the specification words it: only the matched buttons
    that have text content count. *)
Definition buttons_with_text (doc : Dom.Document) : list Dom.Node :=
  List.filter (fun b => negb (Str.is_empty (Dom.textContent b)))
              (Dom.querySelectorAll doc sel_add_to_cart).

Definition add_to_cart_as_specified (doc : Dom.Document) : bool :=
  signal (buttons_with_text doc).

(** A page whose only button is an empty submit button. *)
Definition empty_submit_page : Dom.Document :=
  {| Dom.children :=
       [Dom.Element "html" []
          [Dom.Element "body" []
             [Dom.Element "form" [("action", "/subscribe")]
                [Dom.Element "button" [("type", "submit")] []]]]] |}.

(** A product page: an add-to-cart form, a search box, three images. *)
Definition product_page : Dom.Document :=
  {| Dom.children :=
       [Dom.Element "html" []
          [Dom.Element "head" [] [Dom.Element "title" [] [Dom.Text "Socks"]];
           Dom.Element "body" []
             [Dom.Element "input" [("type", "search"); ("name", "q")] [];
              Dom.Element "img" [("src", "a.png"); ("alt", "Crew socks")] [];
              Dom.Element "img" [("src", "b.png"); ("alt", "  ")] [];
              Dom.Element "img" [("src", "c.png"); ("loading", "LAZY")] [];
              Dom.Element "p" [] [Dom.Text "Now $12.50. Free Shipping!"];
              Dom.Element "form" [("action", "/cart/add")]
                [Dom.Element "button" [] [Dom.Text "  Add to Cart "]]]]] |}.

(** A document with [n] images. *)
Definition gallery (n : nat) : Dom.Document :=
  {| Dom.children :=
       [Dom.Element "html" []
          [Dom.Element "body" [] (repeat (Dom.Element "img" [("src", "a.png")] []) n)]] |}.

Definition blank_page : Dom.Document :=
  {| Dom.children := [Dom.Element "html" [] [Dom.Element "body" [] []]] |}.

(** ** The scorer adapter *)

(** The measurement an audit of the Lighthouse result carries, if any. *)
Definition measured (lhr : LHR) (name : string) : option JS.number :=
  audits lhr !! name ≫= numericValue.

(** The category behind each score field and the audit behind each
    metric field. *)
Definition score_fields : list (string * (Scores -> JS.number)) :=
  [("performance", performance); ("accessibility", accessibility);
   ("best-practices", bestPractices); ("seo", seo)].

Definition metric_fields : list (string * (Metrics -> option JS.number)) :=
  [("largest-contentful-paint", lcp_ms); ("cumulative-layout-shift", cls);
   ("total-blocking-time", tbt_ms); ("speed-index", speedIndex_ms)].

(** A Lighthouse result with no accessibility score, no CLS audit, an LCP
    audit without a value and a blocking time of exactly 0. *)
Definition sparse_lhr : LHR :=
  {| categories :=
       list_to_map
         [("performance", {| score := Some (JS.of_ratio 57 100) |});
          ("accessibility", {| score := None |});
          ("best-practices", {| score := Some (JS.of_Z 1) |});
          ("seo", {| score := Some JS.zero |})];
     audits :=
       list_to_map
         [("largest-contentful-paint", {| numericValue := None |});
          ("total-blocking-time", {| numericValue := Some JS.zero |});
          ("speed-index", {| numericValue := Some (JS.of_Z 4200) |})] |}.

Definition sparse_run : LighthouseRun :=
  {| summary :=
       {| scores := {| performance := JS.of_Z 57; accessibility := JS.zero;
                       bestPractices := JS.of_Z 100; seo := JS.zero |};
          metrics := {| lcp_ms := None; cls := None; tbt_ms := Some JS.zero;
                        speedIndex_ms := Some (JS.of_Z 4200) |} |};
     report := sparse_lhr |}.

(** ** The run *)

(** A world in which every call succeeds. *)
Definition calm : World :=
  {| nowISO := "2024-05-06T07:08:09.000Z";
     launch := fun _ _ _ => Ok tt;
     lighthouse := fun _ _ _ => Ok sparse_lhr;
     kill := fun _ _ _ => Ok tt;
     fetch_text := fun _ _ => Ok "<html><body></body></html>";
     JSDOM := fun _ _ => blank_page;
     settles := fun _ k => k;
     mkdir := fun _ => Ok tt;
     write := fun _ => Ok tt;
     post := Ok tt |}.

(** The same world, with another fate for the webhook request. *)
Definition with_post (w : World) (o : outcome unit) : World :=
  {| nowISO := nowISO w;
     launch := launch w;
     lighthouse := lighthouse w;
     kill := kill w;
     fetch_text := fetch_text w;
     JSDOM := JSDOM w;
     settles := settles w;
     mkdir := mkdir w;
     write := write w;
     post := o |}.

Definition webhook_down : World := with_post calm (Throw "ETIMEDOUT").

(** A world in which fetching the second page fails, and one in which
    both the scan and the desktop scoring of the first page fail, the
    scoring first. *)
Definition second_fetch_fails : World :=
  {| nowISO := nowISO calm;
     launch := launch calm;
     lighthouse := lighthouse calm;
     kill := kill calm;
     fetch_text := fun i _ => if Nat.eqb i 1 then Throw "ECONNRESET" else Ok "";
     JSDOM := JSDOM calm;
     settles := settles calm;
     mkdir := mkdir calm;
     write := write calm;
     post := post calm |}.

Definition two_failures : World :=
  {| nowISO := nowISO calm;
     launch := fun _ _ ff => if String.eqb ff "desktop" then Throw "ECONNREFUSED" else Ok tt;
     lighthouse := lighthouse calm;
     kill := kill calm;
     fetch_text := fun _ _ => Throw "ENOTFOUND";
     JSDOM := JSDOM calm;
     settles := fun _ k => (10 - k)%nat;
     mkdir := mkdir calm;
     write := write calm;
     post := post calm |}.

Definition three_pages : Config :=
  {| PAGES := ["https://gritarmy.com/"; "https://gritarmy.com/collections/socks";
               "https://gritarmy.com/cart"];
     GOOGLE_SHEETS_WEBHOOK_URL := "https://sheets.example/hook" |}.

(** One of the three concurrent calls made for the page fails. *)
Definition page_fails (w : World) (i : nat) (url : string) : bool :=
  failed (runLighthouse w i url "mobile") ||
  failed (runLighthouse w i url "desktop") ||
  failed (scanPage w i url).

(** The record [main] assembles for a page once its three calls are back. *)
Definition page_record (w : World) (i : nat) (url : string) : outcome PageRecord :=
  let? (lhMobile, lhDesktop, scan) :=
    Promise_all (settles w i)
      (runLighthouse w i url "mobile")
      (runLighthouse w i url "desktop")
      (scanPage w i url) in
  Ok {| url := url;
        mobile := {| scores := scores (summary lhMobile);
                     metrics := metrics (summary lhMobile) |};
        desktop := {| scores := scores (summary lhDesktop);
                      metrics := metrics (summary lhDesktop) |};
        scan := scan;
        findings := prioritizeFindings (summary lhMobile) scan |}.

(** The pages the loop starts, the records it assembles and the error
    that ends it, for the pages [xs] at positions [i], [i+1], ... *)
Fixpoint loop_result (w : World) (i : nat) (xs : list string)
  : list string * list PageRecord * option Error :=
  match xs with
  | [] => ([], [], None)
  | x :: rest =>
      match page_record w i x with
      | Ok p =>
          let '(started, recs, err) := loop_result w (S i) rest in
          (x :: started, p :: recs, err)
      | Throw e => ([x], [], Some e)
      end
  end.

Definition auditing (url : string) : Event := ConsoleLog ["Auditing:"; url].
Definition done : Event := ConsoleLog ["Done. Reports in /out"].
Definition webhook_error (e : Error) : Event :=
  ConsoleError ["Google Sheets webhook error:"; e].

(** What a run shows: the files written, the URLs whose audit started,
    the requests posted. *)
Definition written (t : list Event) : list (string * Data) :=
  List.flat_map (fun e => match e with WriteFile p d => [(p, d)] | _ => [] end) t.

Definition started (t : list Event) : list string :=
  List.flat_map
    (fun e => match e with ConsoleLog ["Auditing:"; u] => [u] | _ => [] end) t.

Definition posted (t : list Event) : list (string * Data) :=
  List.flat_map (fun e => match e with Post u b => [(u, b)] | _ => [] end) t.

Definition json_path : string := path_join OUT_DIR "gritaudit-report.json".
Definition html_path : string := path_join OUT_DIR "gritaudit-report.html".

Definition add (s : State) (es : list Event) : State :=
  {| st_pages := st_pages s; st_trace := st_trace s ++ es |}.

(** [main] up to the webhook: the loop, the directory, the two files. *)
Definition prepare (cfg : Config) (w : World) : M (list Sheet.Row) :=
  let* _ := for_of 0 (PAGES cfg) (audit_page w) in
  let* _ := mkdirSync w 1 "out" in
  let* pages := read_pages in
  let report := {| generatedAt := nowISO w; pages := pages |} in
  let* _ := writeFileSync w json_path (JsonReport report) in
  let* _ := writeFileSync w html_path (Html (renderHtmlReport report)) in
  ret (List.map (sheet_row report) pages).

(** What the webhook sink leaves in the trace. *)
Definition sink_events (cfg : Config) (w : World) (rows : list Sheet.Row) : list Event :=
  if Str.is_empty (GOOGLE_SHEETS_WEBHOOK_URL cfg) then []
  else
    Post (GOOGLE_SHEETS_WEBHOOK_URL cfg) (JsonRows rows) ::
    match post w with
    | Ok _ => []
    | Throw e => [webhook_error e]
    end.

(** ** The HTML table *)

(** The page with each unmeasured mobile metric of the table replaced by
    a measured 0. *)
Definition measured_as_zero (p : PageRecord) : PageRecord :=
  {| url := url p;
     mobile :=
       {| scores := scores (mobile p);
          metrics :=
            {| lcp_ms := Some (JS.nullish (lcp_ms (metrics (mobile p))) JS.zero);
               cls := Some (JS.nullish (cls (metrics (mobile p))) JS.zero);
               tbt_ms := tbt_ms (metrics (mobile p));
               speedIndex_ms := speedIndex_ms (metrics (mobile p)) |} |};
     desktop := desktop p;
     scan := scan p;
     findings := findings p |}.

(** A page whose mobile LCP and CLS were not measured. *)
Definition unmeasured_page : PageRecord :=
  {| url := "https://gritarmy.com/cart";
     mobile := report_with None None;
     desktop := report_with None None;
     scan := scanDocument blank_page;
     findings := [] |}.

(** ** Further vocabulary *)

(** How severe a severity label is. *)
Definition rank (severity : string) : nat :=
  if String.eqb severity "HIGH" then 3
  else if String.eqb severity "MED" then 2
  else if String.eqb severity "LOW" then 1
  else 0.

Definition less_severe (a b : Finding) : Prop :=
  (rank (severity b) <= rank (severity a))%nat.

(** Two scans of very different pages that the rules cannot tell apart,
    and a report that differs from [slow_report] in what the rules do not
    read. *)
Definition heavy_scan_twin : ScanResult :=
  {| imageCount := 26; missingAltCount := 3; lazyCount := 12; hasSearch := true;
     hasAddToCart := true; hasPrice := false; hasShippingText := false;
     images := [{| src := "a.png"; alt := None; width := None; height := None;
                   loading := None |}] |}.

Definition slow_report_twin : ScoreReport :=
  {| scores := {| performance := JS.of_Z 12; accessibility := JS.of_Z 80;
                  bestPractices := JS.of_Z 75; seo := JS.of_Z 90 |};
     metrics := {| lcp_ms := Some (JS.of_ratio 40016 10);
                   cls := Some (JS.of_ratio 25 100);
                   tbt_ms := Some (JS.of_Z 900);
                   speedIndex_ms := Some (JS.of_Z 5100) |} |}.

(** A string of white space only. *)
Fixpoint all_white (s : string) : bool :=
  match s with
  | String c s' => Str.is_white c && all_white s'
  | EmptyString => true
  end.


(** The elements of a subtree and of a document, in tree order. *)
Fixpoint elements (n : Dom.Node) : list Dom.Node :=
  match n with
  | Dom.Element _ _ kids => n :: List.flat_map elements kids
  | _ => []
  end.

Definition all_elements (doc : Dom.Document) : list Dom.Node :=
  List.flat_map elements (Dom.children doc).

(** A page that submits through an [input], nested images included. *)
Definition input_submit_page : Dom.Document :=
  {| Dom.children :=
       [Dom.Element "html" []
          [Dom.Element "body" []
             [Dom.Element "form" [("action", "/cart/add")]
                [Dom.Element "input" [("type", "submit"); ("value", "Add to cart")] []];
              Dom.Element "div" []
                [Dom.Element "picture" [] [Dom.Element "img" [("alt", "Sock")] []]]]]] |}.

(** The categories whose score the adapter reads. *)
Definition category_keys : list string :=
  ["performance"; "accessibility"; "best-practices"; "seo"].

(** The list of recommendations of the HTML report: one item per finding,
    page by page, or the placeholder. *)
Definition placeholder : string := "<li>No major issues flagged by rules this run.</li>".

Definition all_findings (report : AuditReport) : list (PageRecord * Finding) :=
  List.flat_map (fun p => List.map (pair p) (findings p)) (pages report).

Definition recommendation_items (report : AuditReport) : string :=
  String.concat "" (List.map (fun pf => render_finding (fst pf) (snd pf)) (all_findings report)).

Definition html_end : string := "</ul>

</body>
</html>".

(** How a finding is named in a row of the sheet. *)
Definition tag (severity type : string) : string := "[" ++ severity ++ "] " ++ type.

(** A report of two pages, the second one with findings. *)
Definition heavy_page : PageRecord :=
  {| url := "https://gritarmy.com/collections/socks";
     mobile := slow_report;
     desktop := fast_report;
     scan := heavy_scan;
     findings := prioritizeFindings slow_report heavy_scan |}.

Definition two_page_report : AuditReport :=
  {| generatedAt := "2024-05-06T07:08:09.000Z"; pages := [unmeasured_page; heavy_page] |}.

(** The same world, with the promises of every page settling at other
    times. *)
Definition with_settles (w : World) (t : nat -> nat -> nat) : World :=
  {| nowISO := nowISO w;
     launch := launch w;
     lighthouse := lighthouse w;
     kill := kill w;
     fetch_text := fetch_text w;
     JSDOM := JSDOM w;
     settles := t;
     mkdir := mkdir w;
     write := write w;
     post := post w |}.

(** A world in which the HTML report cannot be written. *)
Definition html_write_fails : World :=
  {| nowISO := nowISO calm;
     launch := launch calm;
     lighthouse := lighthouse calm;
     kill := kill calm;
     fetch_text := fetch_text calm;
     JSDOM := JSDOM calm;
     settles := settles calm;
     mkdir := mkdir calm;
     write := fun path =>
       if String.eqb path "out/gritaudit-report.html" then Throw "ENOSPC" else Ok tt;
     post := post calm |}.

(** The errors of the three calls made for a page. *)
Definition call_errors (w : World) (i : nat) (url : string) : list Error :=
  List.map snd
    (rejection 0 (runLighthouse w i url "mobile") ++
     rejection 0 (runLighthouse w i url "desktop") ++
     rejection 0 (scanPage w i url)).

(** The report a run writes, from the records it has assembled. *)
Definition report_of (w : World) (r : Run) : AuditReport :=
  {| generatedAt := nowISO w; pages := st_pages (final r) |}.

(** The record the run in [second_fetch_fails] assembles before it
    aborts. *)
Definition first_record : PageRecord :=
  match st_pages (final (script three_pages second_fetch_fails)) with
  | p :: _ => p
  | [] => unmeasured_page
  end.
(** * Properties *)

(** ** The findings engine *)

Lemma floor_half_div (n : nat) : floor_half n = Z.of_nat (n / 2).
Proof.
  unfold floor_half, Qfloor, Qmult, inject_Z. cbn [Qnum Qden].
  rewrite Z.mul_1_r. change (Z.pos (1 * 2)) with (Z.of_nat 2).
  symmetry. apply Nat2Z.inj_div.
Qed.

(** On the image counts below 2048 the binary64 computation
    [Math.floor(n * 0.5)] gives the same integer. *)
Example floor_half_binary64 :
  forallb (fun n => JS.same (JS.Math_floor (JS.mul (JS.of_Z (Z.of_nat n)) (JS.of_ratio 1 2)))
                            (JS.of_Z (floor_half n)))
          (seq 0 2048) = true.
Proof. vm_compute. reflexivity. Qed.

Lemma images_rule_code (m : ScoreReport) (s : ScanResult) :
  (25 <? imageCount s)%nat && (Z.of_nat (lazyCount s) <? floor_half (imageCount s))%Z
  = images_rule m s.
Proof.
  unfold images_rule. rewrite floor_half_div. f_equal.
  destruct (Nat.ltb_spec (lazyCount s) (imageCount s / 2));
    [apply Z.ltb_lt | apply Z.ltb_ge]; lia.
Qed.

(** The result as the findings of the rules that fire, rule by rule. *)
Lemma prioritizeFindings_rules (m : ScoreReport) (s : ScanResult) :
  prioritizeFindings m s =
   ((if performance_rule m s
     then [performance_finding (JS.nullish (lcp_ms (metrics m)) JS.zero)] else []) ++
    (if layout_rule m s
     then [layout_finding (JS.nullish (cls (metrics m)) JS.zero)] else []) ++
    (if alt_rule m s then [alt_finding s] else []) ++
    (if images_rule m s then [images_finding s] else []) ++
    (if trust_rule m s then [trust_finding] else []))%list.
Proof.
  unfold prioritizeFindings. rewrite (images_rule_code m s).
  unfold performance_rule, layout_rule, present_above, alt_rule, trust_rule, push.
  destruct (lcp_ms (metrics m)) as [v|]; [destruct (JS.gt v _)|];
    (destruct (cls (metrics m)) as [c|]; [destruct (JS.gt c _)|]);
    destruct (0 <? missingAltCount s)%nat; destruct (images_rule m s);
    destruct (hasAddToCart s && negb (hasShippingText s)); reflexivity.
Qed.

Ltac rule_cases m s :=
  rewrite (prioritizeFindings_rules m s);
  destruct (performance_rule m s) eqn:?, (layout_rule m s) eqn:?, (alt_rule m s) eqn:?,
           (images_rule m s) eqn:?, (trust_rule m s) eqn:?.

Lemma in_rule_cases (f : Finding) (m : ScoreReport) (s : ScanResult) :
  In f (prioritizeFindings m s) <->
    (performance_rule m s = true /\
       f = performance_finding (JS.nullish (lcp_ms (metrics m)) JS.zero)) \/
    (layout_rule m s = true /\ f = layout_finding (JS.nullish (cls (metrics m)) JS.zero)) \/
    (alt_rule m s = true /\ f = alt_finding s) \/
    (images_rule m s = true /\ f = images_finding s) \/
    (trust_rule m s = true /\ f = trust_finding).
Proof.
  rewrite (prioritizeFindings_rules m s). rewrite !in_app_iff.
  destruct (performance_rule m s), (layout_rule m s), (alt_rule m s),
           (images_rule m s), (trust_rule m s); cbn [In]; intuition congruence.
Qed.

(** C1. When all five rules fire the result is exactly the five findings
    HIGH/Performance, MED/UX-Layout, MED/Accessibility-SEO, MED/Images,
    LOW/Trust-Conversion in that order; for every input the findings are
    those of the rules that fire, in rule order and without any sorting,
    each rule contributing at most one; and when no rule fires the result
    is empty. *)
Theorem findings_in_rule_order (m : ScoreReport) (s : ScanResult) :
  (forallb (fun r => snd r m s) rules = true ->
     List.map label (prioritizeFindings m s) =
       [("HIGH", "Performance"); ("MED", "UX / Layout"); ("MED", "Accessibility / SEO");
        ("MED", "Images"); ("LOW", "Trust / Conversion")]) /\
  List.map label (prioritizeFindings m s) =
    List.map fst (List.filter (fun r => snd r m s) rules) /\
  (forall t, (count_occ string_dec (List.map type (prioritizeFindings m s)) t <= 1)%nat) /\
  (existsb (fun r => snd r m s) rules = false -> prioritizeFindings m s = []).
Proof.
  repeat split.
  - unfold rules; cbn [forallb snd]. rule_cases m s; cbn [andb];
      intros H; try discriminate H; reflexivity.
  - unfold rules; cbn [List.filter snd]. rule_cases m s; reflexivity.
  - intros t. rule_cases m s; cbn [app List.map type performance_finding layout_finding
        alt_finding images_finding trust_finding count_occ];
      repeat match goal with
             | |- context [string_dec ?a ?b] =>
                 destruct (string_dec a b); [try congruence; try subst t|]
             end; lia.
  - unfold rules; cbn [existsb snd]. rule_cases m s; cbn [orb];
      intros H; try discriminate H; reflexivity.
Qed.

Example five_findings :
  forallb (fun r => snd r slow_report heavy_scan) rules = true /\
  List.map label (prioritizeFindings slow_report heavy_scan) =
    [("HIGH", "Performance"); ("MED", "UX / Layout"); ("MED", "Accessibility / SEO");
     ("MED", "Images"); ("LOW", "Trust / Conversion")] /\
  List.map recommendation (firstn 2 (prioritizeFindings slow_report heavy_scan)) =
    ["Mobile LCP is 4002ms. Compress/resize above-the-fold images and reduce heavy sections. Target < 2500ms.";
     "Mobile CLS is 0.250. Ensure images have width/height set; avoid late-loading banners/popups pushing content. Target < 0.10."].
Proof. vm_compute. repeat split. Qed.

Example no_findings : prioritizeFindings fast_report bare_scan = [].
Proof. reflexivity. Qed.

(** C2. The HIGH/Performance finding is produced exactly when [lcp_ms] is
    not null and strictly above 3500, and the MED/UX-Layout finding
    exactly when [cls] is not null and strictly above 0.1: an LCP of 3500
    does not produce the finding and 3501 does, a CLS of 0.1 does not and
    0.1001 does. *)
Theorem strict_metric_thresholds (m : ScoreReport) (s : ScanResult) (f : Finding) :
  (In f (prioritizeFindings m s) /\ type f = "Performance" <->
     exists v, lcp_ms (metrics m) = Some v /\ JS.gt v (JS.of_Z 3500) = true /\
               f = performance_finding v /\ severity f = "HIGH") /\
  (In f (prioritizeFindings m s) /\ type f = "UX / Layout" <->
     exists v, cls (metrics m) = Some v /\ JS.gt v (JS.of_ratio 1 10) = true /\
               f = layout_finding v /\ severity f = "MED") /\
  has_type "Performance" (prioritizeFindings m s) = performance_rule m s /\
  has_type "UX / Layout" (prioritizeFindings m s) = layout_rule m s /\
  (forall c, has_type "Performance"
               (prioritizeFindings (report_with (Some (JS.of_Z 3500)) c) s) = false) /\
  (forall c, has_type "Performance"
               (prioritizeFindings (report_with (Some (JS.of_Z 3501)) c) s) = true) /\
  (forall l, has_type "UX / Layout"
               (prioritizeFindings (report_with l (Some (JS.of_ratio 1 10))) s) = false) /\
  (forall l, has_type "UX / Layout"
               (prioritizeFindings (report_with l (Some (JS.of_ratio 1001 10000))) s) = true).
Proof.
  split; [|split].
  - rewrite in_rule_cases. unfold performance_rule, present_above. split.
    + intros [[[Hr ->] | [[_ ->] | [[_ ->] | [[_ ->] | [_ ->]]]]] Ht];
        try discriminate Ht.
      destruct (lcp_ms (metrics m)) as [v|]; [|discriminate Hr].
      exists v. repeat split; assumption.
    + intros (v & Hv & Hgt & -> & _). rewrite Hv. split; [|reflexivity].
      left. split; [assumption | reflexivity].
  - rewrite in_rule_cases. unfold layout_rule, present_above. split.
    + intros [[[_ ->] | [[Hr ->] | [[_ ->] | [[_ ->] | [_ ->]]]]] Ht];
        try discriminate Ht.
      destruct (cls (metrics m)) as [v|]; [|discriminate Hr].
      exists v. repeat split; assumption.
    + intros (v & Hv & Hgt & -> & _). rewrite Hv. split; [|reflexivity].
      right; left. split; [assumption | reflexivity].
  - split; [rule_cases m s; reflexivity|]. split; [rule_cases m s; reflexivity|].
    repeat split; intros x.
    + rule_cases (report_with (Some (JS.of_Z 3500)) x) s; try reflexivity; discriminate.
    + rule_cases (report_with (Some (JS.of_Z 3501)) x) s; try reflexivity; discriminate.
    + rule_cases (report_with x (Some (JS.of_ratio 1 10))) s; try reflexivity; discriminate.
    + rule_cases (report_with x (Some (JS.of_ratio 1001 10000))) s;
        try reflexivity; discriminate.
Qed.

(** The literals of the two rules, and a NaN, which is above nothing. *)
Example threshold_values :
  JS.toString (JS.of_Z 3500) = "3500" /\ JS.toString (JS.of_ratio 1 10) = "0.1" /\
  JS.toString (JS.of_ratio 1001 10000) = "0.1001" /\
  performance_rule (report_with (Some S754_nan) None) bare_scan = false /\
  performance_rule (report_with (Some (S754_infinity false)) None) bare_scan = true.
Proof. vm_compute. repeat split. Qed.

(** C3. The MED/Images finding is produced exactly when [imageCount > 25]
    and [lazyCount < floor(imageCount * 0.5)]; with 26 images, 12 lazy
    ones produce it (12 < 13) and 13 do not. *)
Theorem images_rule_boundary (m : ScoreReport) (s : ScanResult) (f : Finding) :
  (In f (prioritizeFindings m s) /\ type f = "Images" <->
     (25 < imageCount s)%nat /\ (lazyCount s < imageCount s / 2)%nat /\
     f = images_finding s /\ severity f = "MED") /\
  has_type "Images" (prioritizeFindings m s) = images_rule m s /\
  (imageCount s = 26%nat -> lazyCount s = 12%nat ->
     has_type "Images" (prioritizeFindings m s) = true) /\
  (imageCount s = 26%nat -> lazyCount s = 13%nat ->
     has_type "Images" (prioritizeFindings m s) = false).
Proof.
  assert (Hrule : images_rule m s = true <->
                  (25 < imageCount s)%nat /\ (lazyCount s < imageCount s / 2)%nat).
  { unfold images_rule. rewrite andb_true_iff, !Nat.ltb_lt. reflexivity. }
  split; [|split; [|split]].
  - rewrite in_rule_cases. split.
    + intros [[[_ ->] | [[_ ->] | [[_ ->] | [[Hr ->] | [_ ->]]]]] Ht];
        try discriminate Ht.
      apply Hrule in Hr. destruct Hr. repeat split; assumption.
    + intros (Hn & Hl & -> & _). split; [|reflexivity].
      do 3 right; left. split; [apply Hrule; split; assumption | reflexivity].
  - rule_cases m s; reflexivity.
  - intros Hn Hl.
    assert (Hr : images_rule m s = true) by (unfold images_rule; rewrite Hn, Hl; reflexivity).
    rule_cases m s; try reflexivity; discriminate.
  - intros Hn Hl.
    assert (Hr : images_rule m s = false) by (unfold images_rule; rewrite Hn, Hl; reflexivity).
    rule_cases m s; try reflexivity; discriminate.
Qed.

(** ** The page scanner *)

Example product_page_scan :
  let r := scanDocument product_page in
  (imageCount r, missingAltCount r, lazyCount r) = (3, 2, 1)%nat /\
  (hasSearch r, hasAddToCart r, hasPrice r, hasShippingText r) = (true, true, true, true) /\
  List.map src (images r) = ["a.png"; "b.png"; "c.png"] /\
  List.map button_text (Dom.querySelectorAll product_page sel_add_to_cart) = ["add to cart"].
Proof. vm_compute. repeat split. Qed.

Lemma filter_length_le {A} (p : A -> bool) (l : list A) :
  (length (List.filter p l) <= length l)%nat.
Proof.
  induction l as [|x l IH]; simpl; [lia|]. destruct (p x); simpl; lia.
Qed.

Lemma eqb_empty (a : string) : String.eqb a "" = Str.is_empty a.
Proof. destruct a; reflexivity. Qed.

Lemma alt_present_not_missing (i : ImageRecord) : alt_present i = negb (alt_missing i).
Proof.
  unfold alt_present, alt_missing. destruct (alt i) as [a|]; [|reflexivity].
  rewrite eqb_empty. reflexivity.
Qed.

Lemma alt_split (l : list ImageRecord) :
  (length (List.filter alt_missing l) + length (List.filter alt_present l))%nat = length l.
Proof.
  induction l as [|i l IH]; [reflexivity|].
  cbn [List.filter]. rewrite alt_present_not_missing.
  destruct (alt_missing i); cbn [negb length]; lia.
Qed.

(** C4. In every scan result the count of images without alt text and the
    count of lazy images are at most the image count, and the images
    without alt text together with those that have one make up the image
    count. *)
Theorem scan_count_invariants (doc : Dom.Document) :
  (missingAltCount (scanDocument doc) <= imageCount (scanDocument doc))%nat /\
  (lazyCount (scanDocument doc) <= imageCount (scanDocument doc))%nat /\
  (missingAltCount (scanDocument doc) + length (List.filter alt_present (inventory doc)))%nat
    = imageCount (scanDocument doc).
Proof.
  unfold scanDocument; cbn [missingAltCount lazyCount imageCount].
  fold (inventory doc). split; [|split].
  - apply filter_length_le.
  - apply filter_length_le.
  - apply alt_split.
Qed.

(** Every result [scanPage] returns is the scan of the document that was
    fetched, so what holds of [scanDocument] holds of it. *)
Lemma scanPage_scans (w : World) (i : nat) (url : string) (r : ScanResult) :
  scanPage w i url = Ok r ->
  exists html, fetch_text w i url = Ok html /\ r = scanDocument (JSDOM w html url).
Proof.
  unfold scanPage, obind. destruct (fetch_text w i url) as [html|e]; [|discriminate].
  intros [= <-]. exists html. split; reflexivity.
Qed.

(** A blank [alt] counts as missing although the attribute is there: the
    images counted as missing and those whose [alt] holds any character
    overlap in the blank ones. *)
Lemma alt_given_split (l : list ImageRecord) :
  (length (List.filter alt_missing l) + length (List.filter alt_given l))%nat =
  (length l + length (List.filter alt_blank l))%nat.
Proof.
  induction l as [|i l IH]; [reflexivity|].
  cbn [List.filter]. unfold alt_blank at 1.
  destruct (alt_missing i) eqn:Hm, (alt_given i) eqn:Hg; cbn [andb length]; try lia.
  unfold alt_missing in Hm. unfold alt_given in Hg.
  destruct (alt i) as [[|c a]|]; discriminate.
Qed.

Example blank_alt_is_missing :
  let doc := {| Dom.children := [Dom.Element "img" [("alt", "  ")] []] |} in
  missingAltCount (scanDocument doc) = 1%nat /\
  length (List.filter alt_given (inventory doc)) = 1%nat /\
  length (List.filter alt_present (inventory doc)) = 0%nat.
Proof. repeat split. Qed.

(** C5 fails as stated: a matched button without text raises the signal,
    while no matched button has text. *)
Lemma empty_submit_button_counts :
  hasAddToCart (scanDocument empty_submit_page) = true /\
  add_to_cart_as_specified empty_submit_page = false.
Proof. split; reflexivity. Qed.

Lemma signal_nonempty (buttons : list Dom.Node) : signal buttons = true <-> buttons <> [].
Proof.
  unfold signal. destruct buttons as [|b l].
  - split; [discriminate | congruence].
  - cbn [List.map length]. rewrite orb_true_r. split; [discriminate | reflexivity].
Qed.

(** C5, amended. [hasAddToCart] is the signal over all elements matching
    the selector (a button below a form whose action contains "cart/add",
    a button named "add", or a button of type submit), whatever their
    text: it is true exactly when there is such an element; and whenever
    the signal over the matched buttons with text is raised, so is
    [hasAddToCart]. *)
Theorem hasAddToCart_iff_any_match (doc : Dom.Document) :
  hasAddToCart (scanDocument doc) = signal (Dom.querySelectorAll doc sel_add_to_cart) /\
  (hasAddToCart (scanDocument doc) = true <->
     Dom.querySelectorAll doc sel_add_to_cart <> []) /\
  (add_to_cart_as_specified doc = true -> hasAddToCart (scanDocument doc) = true).
Proof.
  assert (Hcode : hasAddToCart (scanDocument doc) =
                  signal (Dom.querySelectorAll doc sel_add_to_cart)) by reflexivity.
  split; [exact Hcode|]. rewrite Hcode. split; [apply signal_nonempty|].
  unfold add_to_cart_as_specified, buttons_with_text. rewrite !signal_nonempty.
  intros H Hnil. apply H. rewrite Hnil. reflexivity.
Qed.

(** C6. The returned [images] are the first 40 image records in document
    order, so at most 40, while [imageCount], [missingAltCount] and
    [lazyCount] are taken over the full inventory; a page with 41 images
    has [imageCount] 41 and 40 returned records. *)
Theorem images_truncated_counts_full (doc : Dom.Document) :
  images (scanDocument doc) = List.firstn 40 (inventory doc) /\
  (length (images (scanDocument doc)) <= 40)%nat /\
  length (images (scanDocument doc)) = Nat.min 40 (imageCount (scanDocument doc)) /\
  imageCount (scanDocument doc) = length (inventory doc) /\
  missingAltCount (scanDocument doc) = length (List.filter alt_missing (inventory doc)) /\
  lazyCount (scanDocument doc) = length (List.filter is_lazy (inventory doc)) /\
  (imageCount (scanDocument (gallery 41)) = 41%nat /\
   length (images (scanDocument (gallery 41))) = 40%nat /\
   missingAltCount (scanDocument (gallery 41)) = 41%nat).
Proof.
  unfold scanDocument at 1 2 3 4 5 6 7; cbn [images imageCount missingAltCount lazyCount].
  fold (inventory doc). repeat split.
  - rewrite length_firstn. lia.
  - apply length_firstn.
Qed.

(** ** The scorer adapter *)

Lemma metric_measured (lhr : LHR) (name : string) : metric lhr name = measured lhr name.
Proof. unfold metric, measured. destruct (audits lhr !! name); reflexivity. Qed.

Lemma percent_absent : percent None = JS.zero.
Proof. reflexivity. Qed.

Lemma normalize_fields (lhr : LHR) (r : LighthouseRun) :
  normalize lhr = Ok r ->
  exists p a b s,
    categories lhr !! "performance" = Some p /\
    categories lhr !! "accessibility" = Some a /\
    categories lhr !! "best-practices" = Some b /\
    categories lhr !! "seo" = Some s /\
    scores (summary r) =
      {| performance := percent (score p); accessibility := percent (score a);
         bestPractices := percent (score b); seo := percent (score s) |} /\
    metrics (summary r) =
      {| lcp_ms := measured lhr "largest-contentful-paint";
         cls := measured lhr "cumulative-layout-shift";
         tbt_ms := measured lhr "total-blocking-time";
         speedIndex_ms := measured lhr "speed-index" |}.
Proof.
  unfold normalize, category_score, obind.
  destruct (categories lhr !! "performance") as [p|]; [|discriminate].
  destruct (categories lhr !! "accessibility") as [a|]; [|discriminate].
  destruct (categories lhr !! "best-practices") as [b|]; [|discriminate].
  destruct (categories lhr !! "seo") as [s|]; [|discriminate].
  intros [= <-]. exists p, a, b, s. cbn [summary scores metrics].
  rewrite !metric_measured. repeat split.
Qed.

Lemma runLighthouse_normalizes (w : World) (i : nat) (url ff : string) (r : LighthouseRun) :
  runLighthouse w i url ff = Ok r ->
  exists lhr, lighthouse w i url ff = Ok lhr /\ normalize lhr = Ok r.
Proof.
  unfold runLighthouse, obind, finally.
  destruct (launch w i url ff); [|discriminate].
  destruct (kill w i url ff); [|discriminate].
  destruct (lighthouse w i url ff) as [lhr|]; [|discriminate].
  intros H. exists lhr. split; [reflexivity | assumption].
Qed.

(** C7. In every report the scorer adapter returns, a score field is 0
    when the score of its category is absent; a metric field is null,
    never 0, when its audit or the audit's numeric value is absent, and
    is the measured value otherwise, so a measured 0 stays 0. *)
Theorem absent_score_is_zero_absent_metric_is_null
    (w : World) (i : nat) (url ff : string) (r : LighthouseRun) :
  runLighthouse w i url ff = Ok r ->
  exists lhr,
    lighthouse w i url ff = Ok lhr /\
    (forall key field, In (key, field) score_fields ->
       exists c, categories lhr !! key = Some c /\
                 (score c = None -> field (scores (summary r)) = JS.zero)) /\
    (forall key field, In (key, field) metric_fields ->
       (measured lhr key = None ->
          field (metrics (summary r)) = None /\
          field (metrics (summary r)) <> Some JS.zero) /\
       (forall v, measured lhr key = Some v -> field (metrics (summary r)) = Some v) /\
       (measured lhr key = Some JS.zero -> field (metrics (summary r)) = Some JS.zero)).
Proof.
  intros H. apply runLighthouse_normalizes in H as (lhr & Hlh & Hn).
  apply normalize_fields in Hn as (p & a & b & s & Hp & Ha & Hb & Hs & Hsc & Hm).
  exists lhr. split; [exact Hlh|]. rewrite Hsc, Hm. split.
  - intros key field [E | [E | [E | [E | []]]]]; injection E as <- <-;
      [exists p | exists a | exists b | exists s]; (split; [assumption|]);
      intros ->; reflexivity.
  - intros key field [E | [E | [E | [E | []]]]]; injection E as <- <-;
      cbn [lcp_ms cls tbt_ms speedIndex_ms];
      (split; [intros ->; split; [reflexivity | discriminate] |]);
      (split; [intros v Hv; exact Hv | intros Hz; exact Hz]).
Qed.

Lemma sparse_run_returned :
  runLighthouse calm 0 "https://gritarmy.com/" "mobile" = Ok sparse_run.
Proof. vm_compute. reflexivity. Qed.

Lemma absent_score_is_zero_witness :
  exists lhr,
    lighthouse calm 0 "https://gritarmy.com/" "mobile" = Ok lhr /\
    (forall key field, In (key, field) score_fields ->
       exists c, categories lhr !! key = Some c /\
                 (score c = None -> field (scores (summary sparse_run)) = JS.zero)) /\
    (forall key field, In (key, field) metric_fields ->
       (measured lhr key = None ->
          field (metrics (summary sparse_run)) = None /\
          field (metrics (summary sparse_run)) <> Some JS.zero) /\
       (forall v, measured lhr key = Some v ->
          field (metrics (summary sparse_run)) = Some v) /\
       (measured lhr key = Some JS.zero ->
          field (metrics (summary sparse_run)) = Some JS.zero)).
Proof.
  apply (absent_score_is_zero_absent_metric_is_null calm 0 "https://gritarmy.com/" "mobile").
  vm_compute. reflexivity.
Defined.

(** Reading the score of a missing category makes the adapter fail. *)
Example missing_category_throws :
  failed (normalize {| categories := ∅; audits := ∅ |}) = true.
Proof. reflexivity. Qed.

(** ** The run *)

Lemma written_app (a b : list Event) : written (a ++ b) = (written a ++ written b)%list.
Proof. apply flat_map_app. Qed.

Lemma started_app (a b : list Event) : started (a ++ b) = (started a ++ started b)%list.
Proof. apply flat_map_app. Qed.

Lemma posted_app (a b : list Event) : posted (a ++ b) = (posted a ++ posted b)%list.
Proof. apply flat_map_app. Qed.

Lemma written_auditing (l : list string) : written (List.map auditing l) = [].
Proof. induction l as [|x l IH]; [reflexivity | exact IH]. Qed.

Lemma posted_auditing (l : list string) : posted (List.map auditing l) = [].
Proof. induction l as [|x l IH]; [reflexivity | exact IH]. Qed.

Lemma started_auditing (l : list string) : started (List.map auditing l) = l.
Proof.
  induction l as [|x l IH]; [reflexivity|].
  change (started (List.map auditing (x :: l))) with (x :: started (List.map auditing l)).
  rewrite IH. reflexivity.
Qed.

Create Rewrite HintDb trace.
#[local] Hint Rewrite written_app started_app posted_app
  written_auditing posted_auditing started_auditing : trace.

Section Loop.

Variable w : World.

Lemma page_record_fails (i : nat) (url : string) :
  failed (page_record w i url) = page_fails w i url.
Proof.
  unfold page_record, page_fails, Promise_all, obind.
  destruct (runLighthouse w i url "mobile"), (runLighthouse w i url "desktop"),
           (scanPage w i url); reflexivity.
Qed.

Lemma page_record_url (i : nat) (u : string) (p : PageRecord) :
  page_record w i u = Ok p -> url p = u.
Proof.
  unfold page_record, Promise_all, obind.
  destruct (runLighthouse w i u "mobile"), (runLighthouse w i u "desktop"),
           (scanPage w i u); try discriminate.
  intros [= <-]. reflexivity.
Qed.

Lemma audit_page_eval (i : nat) (u : string) (s : State) :
  audit_page w i u s =
    match page_record w i u with
    | Ok p => (Ok tt, {| st_pages := st_pages s ++ [p];
                         st_trace := st_trace s ++ [auditing u] |})
    | Throw e => (Throw e, add s [auditing u])
    end.
Proof.
  unfold audit_page, page_record, bind, emit, await, push_page, push, obind, add.
  cbn [st_pages st_trace].
  destruct (Promise_all _ _ _ _) as [[[m d] sc]|e]; reflexivity.
Qed.

Lemma for_of_eval (xs : list string) (i : nat) (s : State) :
  for_of i xs (audit_page w) s =
    let '(urls, recs, err) := loop_result w i xs in
    (match err with None => Ok tt | Some e => Throw e end,
     {| st_pages := st_pages s ++ recs;
        st_trace := st_trace s ++ List.map auditing urls |}).
Proof.
  revert i s. induction xs as [|x xs IH]; intros i s.
  - cbn. rewrite !app_nil_r. destruct s; reflexivity.
  - cbn [for_of loop_result]. unfold bind. rewrite audit_page_eval.
    destruct (page_record w i x) as [p|e].
    + rewrite IH. destruct (loop_result w (S i) xs) as [[urls recs] err].
      cbn [st_pages st_trace List.map]. rewrite <- !app_assoc. reflexivity.
    + unfold add. rewrite app_nil_r. reflexivity.
Qed.

(** The loop stops at the first page that fails. *)
Lemma loop_result_failure (xs : list string) (i j : nat) (u : string) :
  xs !! j = Some u -> page_fails w (i + j) u = true ->
  exists e,
    snd (loop_result w i xs) = Some e /\
    List.map url (snd (fst (loop_result w i xs))) `prefix_of` take j xs /\
    fst (fst (loop_result w i xs)) `prefix_of` take (S j) xs.
Proof.
  revert i j. induction xs as [|x xs IH]; intros i j Hj Hf; [discriminate Hj|].
  cbn [loop_result].
  destruct (page_record w i x) as [p|e] eqn:Hp.
  - destruct j as [|j].
    + injection Hj as ->. rewrite Nat.add_0_r in Hf.
      rewrite <- page_record_fails, Hp in Hf. discriminate Hf.
    + cbn in Hj. replace (i + S j)%nat with (S i + j)%nat in Hf by lia.
      destruct (IH (S i) j Hj Hf) as (e & He & Hrecs & Hurls).
      destruct (loop_result w (S i) xs) as [[urls recs] err].
      cbn [fst snd] in *. exists e. split; [assumption|].
      cbn [List.map take]. rewrite (page_record_url _ _ _ Hp).
      split; apply prefix_cons; assumption.
  - exists e. cbn [fst snd List.map]. split; [reflexivity|].
    split; [apply prefix_nil|]. cbn [take]. apply prefix_cons, prefix_nil.
Qed.

(** With no failing page the loop starts every page and assembles a
    record for each, in the configured order. *)
Lemma loop_result_success (xs : list string) (i : nat) :
  (forall j u, xs !! j = Some u -> page_fails w (i + j) u = false) ->
  fst (fst (loop_result w i xs)) = xs /\
  List.map url (snd (fst (loop_result w i xs))) = xs /\
  snd (loop_result w i xs) = None.
Proof.
  revert i. induction xs as [|x xs IH]; intros i Hall; [repeat split|].
  cbn [loop_result].
  pose proof (Hall 0%nat x eq_refl) as H0. rewrite Nat.add_0_r in H0.
  rewrite <- page_record_fails in H0.
  destruct (page_record w i x) as [p|e] eqn:Hp; [|discriminate H0].
  destruct (IH (S i)) as (Hu & Hr & He).
  { intros j u Hj. replace (S i + j)%nat with (i + S j)%nat by lia.
    apply (Hall (S j)). exact Hj. }
  destruct (loop_result w (S i) xs) as [[urls recs] err]. cbn [fst snd] in *.
  cbn [List.map]. rewrite (page_record_url _ _ _ Hp), Hu, Hr. repeat split. assumption.
Qed.

Variable cfg : Config.

Lemma postToGoogleSheets_eval (rows : list Sheet.Row) (s : State) :
  postToGoogleSheets cfg w rows s = (Ok tt, add s (sink_events cfg w rows)).
Proof.
  unfold postToGoogleSheets, sink_events, add, webhook_error.
  destruct (Str.is_empty (GOOGLE_SHEETS_WEBHOOK_URL cfg)).
  - unfold ret. rewrite app_nil_r. destruct s; reflexivity.
  - unfold try_catch, bind, emit, await. cbn [st_pages st_trace].
    destruct (post w) as [[]|e]; [reflexivity|].
    rewrite <- app_assoc. reflexivity.
Qed.

Lemma main_eval (s : State) :
  main cfg w s =
    match prepare cfg w s with
    | (Ok rows, s') => (Ok tt, add (add s' (sink_events cfg w rows)) [done])
    | (Throw e, s') => (Throw e, s')
    end.
Proof.
  unfold main, prepare, bind, ret.
  destruct (for_of 0 (PAGES cfg) (audit_page w) s) as [[[]|e] s1]; [|reflexivity].
  destruct (mkdirSync w 1 "out" s1) as [[[]|e] s2]; [|reflexivity].
  destruct (read_pages s2) as [[ps|e] s3]; [|reflexivity].
  fold json_path html_path.
  destruct (writeFileSync w json_path _ s3) as [[[]|e] s4]; [|reflexivity].
  destruct (writeFileSync w html_path _ s4) as [[[]|e] s5]; [|reflexivity].
  rewrite postToGoogleSheets_eval. reflexivity.
Qed.

(** The state in which [prepare] ends, from the result of the loop. *)
Lemma prepare_eval (s : State) :
  prepare cfg w s =
    let '(urls, recs, err) := loop_result w 0 (PAGES cfg) in
    let s1 := {| st_pages := st_pages s ++ recs;
                 st_trace := st_trace s ++ List.map auditing urls |} in
    let report := {| generatedAt := nowISO w; pages := st_pages s1 |} in
    match err with
    | Some e => (Throw e, s1)
    | None =>
        match mkdir w 1 with
        | Throw e => (Throw e, s1)
        | Ok _ =>
            match write w json_path with
            | Throw e => (Throw e, add s1 [Mkdir "out"])
            | Ok _ =>
                match write w html_path with
                | Throw e =>
                    (Throw e, add s1 [Mkdir "out"; WriteFile json_path (JsonReport report)])
                | Ok _ =>
                    (Ok (List.map (sheet_row report) (st_pages s1)),
                     add s1 [Mkdir "out"; WriteFile json_path (JsonReport report);
                             WriteFile html_path (Html (renderHtmlReport report))])
                end
            end
        end
    end.
Proof.
  unfold prepare, bind. rewrite for_of_eval.
  destruct (loop_result w 0 (PAGES cfg)) as [[urls recs] [e|]]; [reflexivity|].
  unfold mkdirSync, writeFileSync, read_pages, bind, await, emit, ret, add.
  cbn [st_pages st_trace].
  destruct (mkdir w 1) as [[]|e]; [|reflexivity].
  destruct (write w json_path) as [[]|e]; [|reflexivity].
  destruct (write w html_path) as [[]|e];
    cbn [st_pages st_trace]; rewrite <- ?app_assoc; reflexivity.
Qed.

Lemma script_eval :
  script cfg w =
    match mkdir w 0 with
    | Throw e => {| final := {| st_pages := []; st_trace := [] |}; exit_code := 1 |}
    | Ok _ =>
        match main cfg w {| st_pages := []; st_trace := [Mkdir OUT_DIR] |} with
        | (Ok _, s') => {| final := s'; exit_code := 0 |}
        | (Throw err, s') => {| final := add s' [ConsoleError [err]]; exit_code := 1 |}
        end
    end.
Proof.
  unfold script, mkdirSync, bind, await, emit. cbn [st_pages st_trace].
  destruct (mkdir w 0) as [[]|e]; reflexivity.
Qed.

Lemma sink_events_quiet (rows : list Sheet.Row) :
  written (sink_events cfg w rows) = [] /\ started (sink_events cfg w rows) = [].
Proof.
  unfold sink_events. destruct (Str.is_empty _); [split; reflexivity|].
  destruct (post w); split; reflexivity.
Qed.

Lemma sink_events_disabled (rows : list Sheet.Row) :
  GOOGLE_SHEETS_WEBHOOK_URL cfg = "" -> sink_events cfg w rows = [].
Proof. unfold sink_events. intros ->. reflexivity. Qed.

(** No request is posted before the sink is reached. *)
Lemma prepare_posts_nothing :
  posted (st_trace (snd (prepare cfg w {| st_pages := []; st_trace := [Mkdir OUT_DIR] |})))
  = [].
Proof.
  rewrite prepare_eval. destruct (loop_result w 0 (PAGES cfg)) as [[urls recs] [e|]].
  - cbn [snd st_trace]. autorewrite with trace. reflexivity.
  - destruct (mkdir w 1); [destruct (write w json_path); [destruct (write w html_path)|]|];
      cbn [snd st_trace add]; autorewrite with trace; reflexivity.
Qed.

End Loop.

Lemma prepare_with_post (cfg : Config) (w : World) (o : outcome unit) :
  prepare cfg (with_post w o) = prepare cfg w.
Proof. reflexivity. Qed.

(** C8. When one of the three calls of some page fails, the run aborts:
    the exit code is not 0, neither report file is written, no record is
    assembled for that page or a later one and no later page is started;
    when no call fails (and the directory and both files can be written)
    the exit code is 0, every page has its record and both files are
    written. *)
Theorem failure_aborts_run (cfg : Config) (w : World) :
  (forall j u, PAGES cfg !! j = Some u -> page_fails w j u = true ->
     exit_code (script cfg w) <> 0 /\
     written (st_trace (final (script cfg w))) = [] /\
     List.map url (st_pages (final (script cfg w))) `prefix_of` take j (PAGES cfg) /\
     started (st_trace (final (script cfg w))) `prefix_of` take (S j) (PAGES cfg)) /\
  ((forall j u, PAGES cfg !! j = Some u -> page_fails w j u = false) ->
   mkdir w 0 = Ok tt -> mkdir w 1 = Ok tt ->
   write w json_path = Ok tt -> write w html_path = Ok tt ->
     exit_code (script cfg w) = 0 /\
     List.map url (st_pages (final (script cfg w))) = PAGES cfg /\
     started (st_trace (final (script cfg w))) = PAGES cfg /\
     List.map fst (written (st_trace (final (script cfg w)))) = [json_path; html_path]).
Proof.
  split.
  - intros j u Hj Hf.
    destruct (loop_result_failure w (PAGES cfg) 0 j u Hj Hf) as (e & He & Hrecs & Hurls).
    rewrite script_eval. destruct (mkdir w 0) as [[]|e0].
    + rewrite main_eval, prepare_eval.
      destruct (loop_result w 0 (PAGES cfg)) as [[urls recs] err].
      cbn [fst snd] in He, Hrecs, Hurls. subst err.
      cbn [final exit_code add st_pages st_trace].
      autorewrite with trace. cbn. rewrite app_nil_r.
      repeat split; [discriminate | assumption | assumption].
    + cbn. repeat split; [discriminate | apply prefix_nil | apply prefix_nil].
  - intros Hall Hm0 Hm1 Hj Hh.
    destruct (loop_result_success w (PAGES cfg) 0 Hall) as (Hu & Hr & He).
    rewrite script_eval, Hm0, main_eval, prepare_eval.
    destruct (loop_result w 0 (PAGES cfg)) as [[urls recs] err].
    cbn [fst snd] in Hu, Hr, He. subst err urls.
    rewrite Hm1, Hj, Hh.
    cbn [final exit_code add st_pages st_trace].
    autorewrite with trace.
    destruct (sink_events_quiet w cfg
                (List.map (sheet_row {| generatedAt := nowISO w; pages := [] ++ recs |})
                          ([] ++ recs))) as [-> ->].
    cbn. rewrite !app_nil_r. repeat split. exact Hr.
Qed.

Example second_page_failure_trace :
  st_trace (final (script three_pages second_fetch_fails)) =
    [Mkdir "out";
     ConsoleLog ["Auditing:"; "https://gritarmy.com/"];
     ConsoleLog ["Auditing:"; "https://gritarmy.com/collections/socks"];
     ConsoleError ["ECONNRESET"]] /\
  exit_code (script three_pages second_fetch_fails) = 1 /\
  List.map url (st_pages (final (script three_pages second_fetch_fails))) =
    ["https://gritarmy.com/"].
Proof. vm_compute. repeat split. Qed.

(** Of two failing calls, [Promise.all] reports the one that fails first. *)
Example first_rejection_reported :
  st_trace (final (script three_pages two_failures)) =
    [Mkdir "out"; ConsoleLog ["Auditing:"; "https://gritarmy.com/"];
     ConsoleError ["ENOTFOUND"]].
Proof. vm_compute. reflexivity. Qed.

Example calm_run :
  exit_code (script (config_js None) calm) = 0 /\
  List.map url (st_pages (final (script (config_js None) calm))) = PAGES (config_js None) /\
  List.map fst (written (st_trace (final (script (config_js None) calm)))) =
    ["out/gritaudit-report.json"; "out/gritaudit-report.html"] /\
  posted (st_trace (final (script (config_js None) calm))) = [].
Proof. vm_compute. repeat split. Qed.

(** ** The webhook sink *)


Example webhook_failure_is_logged :
  exit_code (script three_pages webhook_down) = 0 /\
  List.map fst (written (st_trace (final (script three_pages webhook_down)))) =
    ["out/gritaudit-report.json"; "out/gritaudit-report.html"] /\
  List.map fst (posted (st_trace (final (script three_pages webhook_down)))) =
    ["https://sheets.example/hook"] /\
  drop 8 (st_trace (final (script three_pages webhook_down))) =
    [webhook_error "ETIMEDOUT"; done].
Proof. vm_compute. repeat split. Qed.

(** ** The HTML table *)

Lemma render_row_measured_as_zero (p : PageRecord) :
  render_row (measured_as_zero p) = render_row p.
Proof. reflexivity. Qed.


Example unmeasured_row :
  render_row unmeasured_page =
  "
    <tr>
      <td>https://gritarmy.com/cart</td>
      <td>0</td>
      <td>0</td>
      <td>0</td>
      <td>0</td>
      <td>0</td>
      <td>0.000</td>
    </tr>
  ".
Proof. reflexivity. Qed.

(** * Further properties *)

(** ** The findings engine, rule by rule *)

Lemma has_type_rules (m : ScoreReport) (s : ScanResult) :
  has_type "Performance" (prioritizeFindings m s) = performance_rule m s /\
  has_type "UX / Layout" (prioritizeFindings m s) = layout_rule m s /\
  has_type "Accessibility / SEO" (prioritizeFindings m s) = alt_rule m s /\
  has_type "Images" (prioritizeFindings m s) = images_rule m s /\
  has_type "Trust / Conversion" (prioritizeFindings m s) = trust_rule m s.
Proof. rule_cases m s; repeat split. Qed.

Lemma nat_toString_zero (n : nat) : n <> 0%nat -> JS.nat_toString n <> "0".
Proof.
  intros Hn H. unfold JS.nat_toString, JS.digits in H.
  assert (Hnil : forall x, N.to_uint x <> Decimal.Nil).
  { intros x Hx. pose proof (DecimalN.Unsigned.of_to x) as Hof.
    rewrite Hx in Hof. cbn in Hof. subst x. discriminate Hx. }
  apply (f_equal NilZero.uint_of_string) in H. rewrite NilZero.usu in H by apply Hnil.
  injection H as H. apply (f_equal N.of_uint) in H.
  rewrite DecimalN.Unsigned.of_to in H. cbn in H. lia.
Qed.

(** X1. The MED/Accessibility-SEO finding is produced exactly when
    [missingAltCount] is positive; its recommendation starts with that
    count in decimal, so it is never produced with a count of 0. *)
Theorem alt_finding_iff_missing (m : ScoreReport) (s : ScanResult) (f : Finding) :
  (In f (prioritizeFindings m s) /\ type f = "Accessibility / SEO" <->
     (0 < missingAltCount s)%nat /\ f = alt_finding s) /\
  has_type "Accessibility / SEO" (prioritizeFindings m s) = (0 <? missingAltCount s)%nat /\
  (In f (prioritizeFindings m s) -> type f = "Accessibility / SEO" ->
     severity f = "MED" /\
     recommendation f =
       JS.nat_toString (missingAltCount s) ++
       " images are missing alt text. Add descriptive alt text (especially on product/collection images)." /\
     JS.nat_toString (missingAltCount s) <> "0").
Proof.
  assert (Hiff : In f (prioritizeFindings m s) /\ type f = "Accessibility / SEO" <->
                 (0 < missingAltCount s)%nat /\ f = alt_finding s).
  { rewrite in_rule_cases. unfold alt_rule. rewrite Nat.ltb_lt. split.
    - intros [[[_ ->] | [[_ ->] | [[Hr ->] | [[_ ->] | [_ ->]]]]] Ht];
        try discriminate Ht.
      split; [assumption | reflexivity].
    - intros [Hpos ->]. split; [|reflexivity].
      do 2 right; left. split; [assumption | reflexivity]. }
  split; [exact Hiff|]. split; [apply has_type_rules|].
  intros Hin Ht. destruct (proj1 Hiff (conj Hin Ht)) as [Hpos ->].
  repeat split.
  apply nat_toString_zero. lia.
Qed.

(** X2. The LOW/Trust-Conversion finding is produced exactly when the scan
    saw an add-to-cart button and no shipping text; it is always the same
    finding, whatever the page. *)
Theorem trust_finding_iff_cart_without_shipping
    (m : ScoreReport) (s : ScanResult) (f : Finding) :
  (In f (prioritizeFindings m s) /\ type f = "Trust / Conversion" <->
     hasAddToCart s = true /\ hasShippingText s = false /\ f = trust_finding) /\
  has_type "Trust / Conversion" (prioritizeFindings m s) =
    hasAddToCart s && negb (hasShippingText s) /\
  (hasShippingText s = true -> has_type "Trust / Conversion" (prioritizeFindings m s) = false) /\
  (In f (prioritizeFindings m s) -> severity f = "LOW" -> f = trust_finding).
Proof.
  assert (Hrule : trust_rule m s = true <-> hasAddToCart s = true /\ hasShippingText s = false).
  { unfold trust_rule. rewrite andb_true_iff, negb_true_iff. reflexivity. }
  split; [|split; [|split]].
  - rewrite in_rule_cases. split.
    + intros [[[_ ->] | [[_ ->] | [[_ ->] | [[_ ->] | [Hr ->]]]]] Ht];
        try discriminate Ht.
      apply Hrule in Hr. destruct Hr. repeat split; assumption.
    + intros (Ha & Hs & ->). split; [|reflexivity].
      do 4 right. split; [apply Hrule; split; assumption | reflexivity].
  - apply has_type_rules.
  - intros Hs. destruct (has_type_rules m s) as (_ & _ & _ & _ & ->).
    unfold trust_rule. rewrite Hs. apply andb_false_r.
  - rewrite in_rule_cases.
    intros [[_ ->] | [[_ ->] | [[_ ->] | [[_ ->] | [_ ->]]]]] Hsev;
      try discriminate Hsev. reflexivity.
Qed.

(** X3. The findings depend on nothing but the mobile [lcp_ms] and [cls]
    and five fields of the scan: the category scores, the other metrics,
    [hasSearch], [hasPrice] and the image records play no part. *)
Theorem findings_read_seven_fields (m m' : ScoreReport) (s s' : ScanResult) :
  lcp_ms (metrics m) = lcp_ms (metrics m') ->
  cls (metrics m) = cls (metrics m') ->
  missingAltCount s = missingAltCount s' ->
  imageCount s = imageCount s' ->
  lazyCount s = lazyCount s' ->
  hasAddToCart s = hasAddToCart s' ->
  hasShippingText s = hasShippingText s' ->
  prioritizeFindings m s = prioritizeFindings m' s'.
Proof.
  intros Hl Hc Hm Hi Hz Ha Hs.
  rewrite (prioritizeFindings_rules m s), (prioritizeFindings_rules m' s').
  unfold performance_rule, layout_rule, alt_rule, images_rule, trust_rule,
    alt_finding, images_finding.
  rewrite Hl, Hc, Hm, Hi, Hz, Ha, Hs. reflexivity.
Qed.

Lemma findings_read_seven_fields_witness :
  prioritizeFindings slow_report heavy_scan = prioritizeFindings slow_report_twin heavy_scan_twin.
Proof.
  apply (findings_read_seven_fields slow_report slow_report_twin heavy_scan heavy_scan_twin);
    reflexivity.
Defined.

Lemma sorted_by_rank (l : list Finding) :
  StronglySorted ge (List.map (fun f => rank (severity f)) l) ->
  StronglySorted less_severe l.
Proof.
  induction l as [|f l IH]; intros H; [constructor|].
  cbn [List.map] in H. apply StronglySorted_inv in H as [Hl Hf].
  constructor; [apply IH; exact Hl|].
  apply List.Forall_forall. intros g Hg. unfold less_severe.
  rewrite List.Forall_forall in Hf. apply Hf. apply in_map_iff. exists g. split; trivial.
Qed.

(** X4. There are never more than five findings, and they are always
    listed from the most to the least severe: the rule order happens to
    be the severity order. *)
Theorem findings_most_severe_first (m : ScoreReport) (s : ScanResult) :
  (length (prioritizeFindings m s) <= 5)%nat /\
  StronglySorted less_severe (prioritizeFindings m s) /\
  (forall f, In f (prioritizeFindings m s) ->
     severity f = "HIGH" \/ severity f = "MED" \/ severity f = "LOW").
Proof.
  split; [|split].
  - rule_cases m s; cbn [app length]; lia.
  - apply sorted_by_rank.
    rule_cases m s; lazy; repeat constructor.
  - intros f. rewrite in_rule_cases.
    intros [[_ ->] | [[_ ->] | [[_ ->] | [[_ ->] | [_ ->]]]]];
      cbn [severity performance_finding layout_finding alt_finding images_finding
           trust_finding]; tauto.
Qed.

(** ** Scanning, then judging *)

Lemma filter_nonempty {A} (p : A -> bool) (l : list A) :
  (0 <? length (List.filter p l))%nat = existsb p l.
Proof.
  induction l as [|x l IH]; [reflexivity|].
  cbn [List.filter existsb]. destruct (p x); [reflexivity | exact IH].
Qed.

(** X5. For the scan of a document, the Accessibility-SEO finding is
    produced exactly when some image of the document lacks alt text, the
    Images finding is decided on all images of the document (not on the
    40 that are kept), and the Trust-Conversion finding is produced
    exactly when some element matches the add-to-cart selector and the
    body text has none of the shipping words. *)
Theorem findings_of_scanned_document (m : ScoreReport) (doc : Dom.Document) :
  has_type "Accessibility / SEO" (prioritizeFindings m (scanDocument doc)) =
    existsb alt_missing (inventory doc) /\
  has_type "Images" (prioritizeFindings m (scanDocument doc)) =
    (25 <? length (inventory doc))%nat &&
    (length (List.filter is_lazy (inventory doc)) <? length (inventory doc) / 2)%nat /\
  has_type "Trust / Conversion" (prioritizeFindings m (scanDocument doc)) =
    (0 <? length (Dom.querySelectorAll doc sel_add_to_cart))%nat &&
    negb (test_shipping (body_text doc)).
Proof.
  destruct (has_type_rules m (scanDocument doc)) as (_ & _ & -> & -> & ->).
  unfold alt_rule, images_rule, trust_rule, scanDocument.
  cbn [missingAltCount imageCount lazyCount hasAddToCart hasShippingText].
  fold (inventory doc). rewrite filter_nonempty. repeat split.
  f_equal. fold (signal (Dom.querySelectorAll doc sel_add_to_cart)).
  unfold signal. destruct (Dom.querySelectorAll doc sel_add_to_cart); [reflexivity|].
  cbn [List.map length]. apply orb_true_r.
Qed.

(** ** The page scanner, attribute by attribute *)

Lemma trimStart_white (s : string) : all_white (Str.trimStart s) = all_white s.
Proof.
  induction s as [|c s IH]; [reflexivity|].
  cbn [Str.trimStart]. destruct (Str.is_white c) eqn:Hc.
  - rewrite IH. cbn [all_white]. rewrite Hc. reflexivity.
  - reflexivity.
Qed.

Lemma trimEnd_empty (s : string) : Str.is_empty (Str.trimEnd s) = all_white s.
Proof.
  induction s as [|c s IH]; [reflexivity|].
  cbn [Str.trimEnd all_white].
  destruct (Str.trimEnd s) as [|d r]; cbn [Str.is_empty] in IH; rewrite <- IH.
  - destruct (Str.is_white c); reflexivity.
  - rewrite andb_false_r. reflexivity.
Qed.

Lemma trim_empty (s : string) : Str.is_empty (Str.trim s) = all_white s.
Proof. unfold Str.trim. rewrite trimEnd_empty. apply trimStart_white. Qed.


Lemma test_price_iff (s : string) :
  test_price s = true <->
  exists pre c post, s = pre ++ String "$" (String c post) /\ price_char c = true.
Proof.
  split.
  - induction s as [|c s IH]; [discriminate|].
    cbn [test_price]. destruct s as [|c' r]; [discriminate|].
    intros H. apply orb_true_iff in H as [H|H].
    + apply andb_true_iff in H as [Hc Hp]. apply Ascii.eqb_eq in Hc. subst c.
      exists "", c', r. split; [reflexivity | exact Hp].
    + destruct (IH H) as (pre & d & post & Hs & Hd).
      exists (String c pre), d, post. split; [|exact Hd].
      rewrite Hs. reflexivity.
  - intros (pre & c & post & -> & Hc).
    induction pre as [|x pre IH].
    + change (test_price (String "$" (String c post)) = true).
      cbn [test_price]. rewrite Hc. reflexivity.
    + change (test_price (String x (pre ++ String "$" (String c post))) = true).
      cbn [test_price].
      destruct (pre ++ String "$" (String c post)) as [|c' r]; [discriminate IH|].
      rewrite IH. apply orb_true_r.
Qed.

(** X7. [hasPrice] is true exactly when the body text holds a dollar sign
    immediately followed by a digit, a comma or a period; a document
    without a body has no price. *)
Theorem hasPrice_iff_dollar_amount (doc : Dom.Document) :
  (hasPrice (scanDocument doc) = true <->
     exists pre c post,
       body_text doc = pre ++ String "$" (String c post) /\ price_char c = true) /\
  (Dom.body doc = None -> hasPrice (scanDocument doc) = false) /\
  (forall c, price_char c = true <->
     (48 <= nat_of_ascii c <= 57)%nat \/ c = ","%char \/ c = "."%char).
Proof.
  split; [apply test_price_iff|]. split.
  - intros Hb. unfold scanDocument, body_text; cbn [hasPrice]. rewrite Hb. reflexivity.
  - intros c. unfold price_char. rewrite !orb_true_iff, andb_true_iff.
    rewrite !Nat.leb_le, !Nat.eqb_eq. split.
    + intros [[H|H]|H]; [left; exact H | right; left | right; right];
        rewrite <- (ascii_nat_embedding c), H; reflexivity.
    + intros [H|[->| ->]]; [left; left; exact H | left; right | right]; reflexivity.
Qed.

(** ** The scanner and the document tree *)

Lemma Node_nested_ind (P : Dom.Node -> Prop) :
  (forall t a kids, Forall P kids -> P (Dom.Element t a kids)) ->
  (forall d, P (Dom.Text d)) ->
  (forall d, P (Dom.Comment d)) ->
  forall n, P n.
Proof.
  intros HE HT HC. fix IH 1. intros [t a kids|d|d]; [|apply HT|apply HC].
  apply HE. induction kids as [|k kids IHk]; constructor; [apply IH | exact IHk].
Qed.

Lemma filter_flat_map {A B} (p : B -> bool) (f : A -> list B) (l : list A) :
  List.filter p (List.flat_map f l) = List.flat_map (fun x => List.filter p (f x)) l.
Proof.
  induction l as [|x l IH]; [reflexivity|].
  cbn [List.flat_map]. rewrite List.filter_app, IH. reflexivity.
Qed.

Lemma flat_map_Forall_ext {A B} (f g : A -> list B) (l : list A) :
  Forall (fun x => f x = g x) l -> List.flat_map f l = List.flat_map g l.
Proof.
  induction 1 as [|x l Hx _ IH]; [reflexivity|].
  cbn [List.flat_map]. rewrite Hx, IH. reflexivity.
Qed.

(** ["img"] selects every [img] element of a subtree, whatever is above. *)
Lemma select_img (n : Dom.Node) :
  forall anc, Dom.select sel_img anc n = List.filter (Dom.has_tag "img") (elements n).
Proof.
  induction n as [t a kids IH| |] using Node_nested_ind; intros anc; [|reflexivity..].
  cbn [Dom.select elements List.filter].
  rewrite filter_flat_map.
  rewrite (flat_map_Forall_ext (Dom.select sel_img (Dom.Element t a kids :: anc))
             (fun x => List.filter (Dom.has_tag "img") (elements x))).
  - unfold Dom.matches, sel_img, Dom.matches_complex, Dom.matches_compound.
    cbn [existsb forallb Dom.sel_tag Dom.sel_attrs].
    rewrite andb_true_r, orb_false_r.
    destruct (Dom.has_tag "img" (Dom.Element t a kids)); reflexivity.
  - eapply List.Forall_impl; [|exact IH]. intros k Hk. apply Hk.
Qed.

(** What a selector returns are elements of the subtree that match it
    under some chain of ancestors. *)
Lemma select_sound (s : Dom.selector) (n : Dom.Node) :
  forall anc b, In b (Dom.select s anc n) ->
    In b (elements n) /\ exists anc', Dom.matches s anc' b = true.
Proof.
  induction n as [t a kids IH| |] using Node_nested_ind; intros anc b; [|intros []..].
  cbn [Dom.select elements]. rewrite in_app_iff. intros [H|H].
  - destruct (Dom.matches s anc (Dom.Element t a kids)) eqn:Hm; [|destruct H].
    destruct H as [<-|[]]. split; [left; reflexivity | exists anc; exact Hm].
  - apply in_flat_map in H as (k & Hk & Hb).
    rewrite List.Forall_forall in IH.
    destruct (IH k Hk _ _ Hb) as [Hin Hmatch].
    split; [|exact Hmatch]. right. apply in_flat_map. exists k. split; assumption.
Qed.

Lemma querySelectorAll_sound (doc : Dom.Document) (s : Dom.selector) (b : Dom.Node) :
  In b (Dom.querySelectorAll doc s) ->
  In b (all_elements doc) /\ exists anc, Dom.matches s anc b = true.
Proof.
  unfold Dom.querySelectorAll, all_elements. intros H.
  apply in_flat_map in H as (k & Hk & Hb).
  destruct (select_sound s k _ _ Hb) as [Hin Hm].
  split; [|exact Hm]. apply in_flat_map. exists k. split; assumption.
Qed.

(** X8. The scanner looks at the whole tree: every [img] element, however
    deeply nested, is counted once; [hasAddToCart] is only ever raised by
    a [button] element and [hasSearch] by a [form] or an [input], so a
    page that submits through [input type=submit] has no add-to-cart
    signal. *)
Theorem scan_reads_elements_by_tag (doc : Dom.Document) :
  imageCount (scanDocument doc) =
    length (List.filter (Dom.has_tag "img") (all_elements doc)) /\
  (hasAddToCart (scanDocument doc) = true ->
     exists b, In b (all_elements doc) /\ Dom.has_tag "button" b = true) /\
  (hasSearch (scanDocument doc) = true ->
     exists e, In e (all_elements doc) /\
               (Dom.has_tag "form" e || Dom.has_tag "input" e = true)) /\
  ((forall n, In n (all_elements doc) -> Dom.has_tag "button" n = false) ->
     hasAddToCart (scanDocument doc) = false).
Proof.
  assert (Hcart : hasAddToCart (scanDocument doc) = true ->
            exists b, In b (all_elements doc) /\ Dom.has_tag "button" b = true).
  { intros H. apply (proj1 (signal_nonempty _)) in H.
    destruct (Dom.querySelectorAll doc sel_add_to_cart) as [|b l] eqn:Hq; [congruence|].
    destruct (querySelectorAll_sound doc sel_add_to_cart b) as [Hin [anc Hm]].
    { rewrite Hq. left. reflexivity. }
    exists b. split; [exact Hin|].
    unfold Dom.matches, sel_add_to_cart, Dom.matches_complex, Dom.matches_compound in Hm.
    cbn [existsb Dom.sel_tag] in Hm.
    destruct (Dom.has_tag "button" b); [reflexivity | discriminate Hm]. }
  split; [|split; [exact Hcart|split]].
  - unfold scanDocument; cbn [imageCount]. rewrite length_map.
    unfold Dom.querySelectorAll, all_elements. rewrite filter_flat_map.
    f_equal. apply flat_map_Forall_ext. apply List.Forall_forall.
    intros k _. apply select_img.
  - unfold scanDocument; cbn [hasSearch]. unfold Dom.querySelector.
    destruct (Dom.querySelectorAll doc sel_search) as [|e l] eqn:Hq; [discriminate|].
    intros _. destruct (querySelectorAll_sound doc sel_search e) as [Hin [anc Hm]].
    { rewrite Hq. left. reflexivity. }
    exists e. split; [exact Hin|].
    unfold Dom.matches, sel_search, Dom.matches_complex, Dom.matches_compound in Hm.
    cbn [existsb Dom.sel_tag] in Hm.
    destruct (Dom.has_tag "form" e), (Dom.has_tag "input" e);
      [reflexivity.. | discriminate Hm].
  - intros Hnone. destruct (hasAddToCart (scanDocument doc)) eqn:H; [|reflexivity].
    destruct (Hcart eq_refl) as (b & Hin & Hb). rewrite (Hnone b Hin) in Hb.
    discriminate Hb.
Qed.

Example input_submit_is_not_a_button :
  hasAddToCart (scanDocument input_submit_page) = false /\
  imageCount (scanDocument input_submit_page) = 1%nat.
Proof. split; reflexivity. Qed.

(** ** The scorer adapter: scores and failures *)

Lemma iter_pos_keeps {A} (f : A -> A) (P : A -> Prop) :
  (forall x, P x -> P (f x)) -> forall n x, P x -> P (SpecFloat.iter_pos f n x).
Proof.
  intros Hf. induction n as [n IH|n IH|]; intros x Hx; cbn [SpecFloat.iter_pos].
  - apply IH, IH, Hf, Hx.
  - apply IH, IH, Hx.
  - apply Hf, Hx.
Qed.

Lemma shr_1_nonneg (mrs : shr_record) : 0 <= shr_m mrs -> 0 <= shr_m (shr_1 mrs).
Proof.
  destruct mrs as [m r s]. cbn [shr_m]. intros Hm.
  destruct m as [|[p|p|]|p]; cbn; lia.
Qed.

Lemma shr_fexp_nonneg (m e : Z) (l : location) :
  0 <= m -> 0 <= shr_m (fst (shr_fexp JS.prec JS.emax m e l)).
Proof.
  intros Hm. unfold shr_fexp, shr.
  assert (H0 : 0 <= shr_m (shr_record_of_loc m l)).
  { destruct l as [|[]]; exact Hm. }
  destruct (fexp JS.prec JS.emax (Zdigits2 m + e) - e) as [|p|p]; cbn [fst]; try exact H0.
  apply iter_pos_keeps; [apply shr_1_nonneg | exact H0].
Qed.

Lemma binary_round_aux_number (sx : bool) (mx ex : Z) (lx : location) :
  0 <= mx -> binary_round_aux JS.prec JS.emax sx mx ex lx <> S754_nan.
Proof.
  intros Hm. unfold binary_round_aux.
  pose proof (shr_fexp_nonneg mx ex lx Hm) as H1.
  destruct (shr_fexp JS.prec JS.emax mx ex lx) as [mrs' e']. cbn [fst] in H1.
  assert (H2 : 0 <= round_nearest_even (shr_m mrs') (loc_of_shr_record mrs')).
  { unfold round_nearest_even. destruct (loc_of_shr_record mrs') as [|[]]; try lia.
    destruct (Z.even (shr_m mrs')); lia. }
  pose proof (shr_fexp_nonneg _ e' loc_Exact H2) as H3.
  destruct (shr_fexp JS.prec JS.emax _ e' loc_Exact) as [mrs'' e'']. cbn [fst] in H3.
  destruct (shr_m mrs'') as [|p|p]; [discriminate | | lia].
  destruct (e'' <=? JS.emax - JS.prec)%Z; discriminate.
Qed.

Lemma of_Z_number (z : Z) : JS.of_Z z <> S754_nan.
Proof.
  unfold JS.of_Z, binary_normalize. destruct z as [|p|p]; [discriminate|..];
    unfold binary_round;
    destruct (shl_align _ _ _) as [mz ez]; apply binary_round_aux_number; lia.
Qed.

Lemma Math_round_number (x : JS.number) : x <> S754_nan -> JS.Math_round x <> S754_nan.
Proof.
  intros Hx. unfold JS.Math_round. destruct x as [s|s| |s m [|e|e]]; try exact Hx.
  cbv zeta. destruct (_ =? 0)%Z; [discriminate | apply of_Z_number].
Qed.

Lemma percent_number (s : option JS.number) : percent s <> S754_nan.
Proof.
  unfold percent. apply Math_round_number.
  set (h := JS.of_Z 100). vm_compute in h. subst h.
  unfold JS.or_else, JS.mul.
  destruct s as [[b|b| |b m e]|]; cbn [JS.truthy SFmul JS.zero]; try discriminate.
  apply binary_round_aux_number. lia.
Qed.

(** X9. No score field of a report the scorer adapter returns is NaN,
    whatever Lighthouse reported; a category score of 0, -0 or NaN gives
    the field 0, like an absent one. *)
Theorem scores_are_numbers (w : World) (i : nat) (url ff : string) (r : LighthouseRun) :
  runLighthouse w i url ff = Ok r ->
  (forall key field, In (key, field) score_fields ->
     field (scores (summary r)) <> S754_nan) /\
  (forall b, percent (Some (S754_zero b)) = JS.zero) /\
  percent (Some S754_nan) = JS.zero.
Proof.
  intros H. apply runLighthouse_normalizes in H as (lhr & _ & Hn).
  apply normalize_fields in Hn as (p & a & b & s & _ & _ & _ & _ & Hsc & _).
  rewrite Hsc. repeat split; try reflexivity.
  intros key field [E | [E | [E | [E | []]]]]; injection E as <- <-;
    cbn [performance accessibility bestPractices seo]; apply percent_number.
Qed.

Lemma scores_are_numbers_witness :
  (forall key field, In (key, field) score_fields ->
     field (scores (summary sparse_run)) <> S754_nan) /\
  (forall b, percent (Some (S754_zero b)) = JS.zero) /\
  percent (Some S754_nan) = JS.zero.
Proof.
  apply (scores_are_numbers calm 0 "https://gritarmy.com/" "mobile").
  vm_compute. reflexivity.
Defined.

Lemma normalize_succeeds_iff (lhr : LHR) :
  (exists r, normalize lhr = Ok r) <->
  forall key, In key category_keys -> is_Some (categories lhr !! key).
Proof.
  unfold normalize, category_score, obind, category_keys. split.
  - intros [r Hr] key Hk.
    destruct (categories lhr !! "performance") eqn:Hp; [|discriminate].
    destruct (categories lhr !! "accessibility") eqn:Ha; [|discriminate].
    destruct (categories lhr !! "best-practices") eqn:Hb; [|discriminate].
    destruct (categories lhr !! "seo") eqn:Hs; [|discriminate].
    destruct Hk as [<-|[<-|[<-|[<-|[]]]]]; eauto.
  - intros H.
    destruct (H "performance") as [p ->]; [cbn; tauto|].
    destruct (H "accessibility") as [a ->]; [cbn; tauto|].
    destruct (H "best-practices") as [b ->]; [cbn; tauto|].
    destruct (H "seo") as [s ->]; [cbn; tauto|].
    eexists. reflexivity.
Qed.

(** X10. A call to the scorer adapter succeeds exactly when the browser
    starts, Lighthouse answers with all four categories and the browser
    can be closed; the raw result it returns is Lighthouse's.  A browser
    that does not start fails the call with that error; a browser that
    cannot be closed fails it with the error of closing, even when
    scoring succeeded or failed with another error. *)
Theorem runLighthouse_outcome (w : World) (i : nat) (url ff : string) :
  ((exists r, runLighthouse w i url ff = Ok r) <->
     launch w i url ff = Ok tt /\ kill w i url ff = Ok tt /\
     exists lhr, lighthouse w i url ff = Ok lhr /\
       forall key, In key category_keys -> is_Some (categories lhr !! key)) /\
  (forall r, runLighthouse w i url ff = Ok r -> lighthouse w i url ff = Ok (report r)) /\
  (forall e, launch w i url ff = Throw e -> runLighthouse w i url ff = Throw e) /\
  (forall e, launch w i url ff = Ok tt -> kill w i url ff = Throw e ->
     runLighthouse w i url ff = Throw e) /\
  (forall e, launch w i url ff = Ok tt -> kill w i url ff = Ok tt ->
     lighthouse w i url ff = Throw e -> runLighthouse w i url ff = Throw e).
Proof.
  unfold runLighthouse, obind, finally.
  split; [split|split; [|split; [|split]]].
  - intros [r Hr].
    destruct (launch w i url ff) as [[]|]; [|discriminate].
    destruct (kill w i url ff) as [[]|]; [|discriminate].
    destruct (lighthouse w i url ff) as [lhr|]; [|discriminate].
    repeat split. exists lhr. split; [reflexivity|].
    apply normalize_succeeds_iff. exists r. exact Hr.
  - intros (-> & -> & lhr & -> & Hk). apply normalize_succeeds_iff. exact Hk.
  - intros r.
    destruct (launch w i url ff); [|discriminate].
    destruct (kill w i url ff); [|discriminate].
    destruct (lighthouse w i url ff) as [lhr|]; [|discriminate].
    intros Hn. f_equal.
    unfold normalize, obind in Hn.
    destruct (category_score lhr "performance"); [|discriminate].
    destruct (category_score lhr "accessibility"); [|discriminate].
    destruct (category_score lhr "best-practices"); [|discriminate].
    destruct (category_score lhr "seo"); [|discriminate].
    injection Hn as <-. reflexivity.
  - intros e ->. reflexivity.
  - intros e -> ->. reflexivity.
  - intros e -> -> ->. reflexivity.
Qed.

(** ** The renderers *)

Lemma append_assoc (a b c : string) : (a ++ b) ++ c = a ++ b ++ c.
Proof.
  induction a as [|x a IH]; [reflexivity|].
  change (String x ((a ++ b) ++ c) = String x (a ++ b ++ c)). rewrite IH. reflexivity.
Qed.

Lemma append_empty_r (a : string) : a ++ "" = a.
Proof.
  induction a as [|x a IH]; [reflexivity|].
  change (String x (a ++ "") = String x a). rewrite IH. reflexivity.
Qed.

Lemma concat_empty_cons (x : string) (l : list string) :
  String.concat "" (x :: l) = x ++ String.concat "" l.
Proof. destruct l as [|y l]; [symmetry; apply append_empty_r | reflexivity]. Qed.

Lemma concat_empty_app (l1 l2 : list string) :
  String.concat "" (l1 ++ l2) = String.concat "" l1 ++ String.concat "" l2.
Proof.
  induction l1 as [|x l1 IH]; [reflexivity|].
  change ((x :: l1) ++ l2)%list with (x :: (l1 ++ l2))%list.
  rewrite !concat_empty_cons, IH, append_assoc. reflexivity.
Qed.

(** The nested joins of [renderHtmlReport] give one item per finding. *)
Lemma items_flattened (report : AuditReport) :
  String.concat ""
    (List.map (fun p => String.concat "" (List.map (render_finding p) (findings p)))
              (pages report))
  = recommendation_items report.
Proof.
  unfold recommendation_items, all_findings.
  induction (pages report) as [|p ps IH]; [reflexivity|].
  cbn [List.map List.flat_map]. rewrite concat_empty_cons, IH, map_app, concat_empty_app.
  rewrite List.map_map. reflexivity.
Qed.

Lemma items_empty (report : AuditReport) :
  Str.is_empty (recommendation_items report) =
  forallb (fun p => match findings p with [] => true | _ => false end) (pages report).
Proof.
  unfold recommendation_items, all_findings.
  induction (pages report) as [|p ps IH]; [reflexivity|].
  cbn [List.flat_map forallb]. rewrite map_app, concat_empty_app.
  destruct (findings p) as [|f fs].
  - cbn [List.map]. exact IH.
  - cbn [List.map fst snd]. rewrite concat_empty_cons. reflexivity.
Qed.

Lemma ends_with_step (a s t : string) :
  (exists pre, s = pre ++ t) -> exists pre, a ++ s = pre ++ t.
Proof. intros [pre ->]. exists (a ++ pre). symmetry. apply append_assoc. Qed.

(** X11. The HTML report ends with the list of recommendations: one item
    per finding over all pages, page by page, each in its page's order;
    when no page has a finding (or there is no page) the list holds the
    placeholder item instead, and only then. *)
Theorem recommendations_or_placeholder (report : AuditReport) :
  (exists before,
     renderHtmlReport report =
       before ++ "<ul>" ++
       (if forallb (fun p => match findings p with [] => true | _ => false end)
                   (pages report)
        then placeholder else recommendation_items report) ++
       html_end) /\
  length (all_findings report) = list_sum (List.map (fun p => length (findings p)) (pages report)) /\
  (all_findings report <> [] -> recommendation_items report <> "").
Proof.
  split; [|split].
  - unfold renderHtmlReport. cbv zeta. rewrite items_flattened.
    unfold Str.or_else. rewrite items_empty.
    do 12 apply ends_with_step.
    exists "</tbody>
  </table>

  <h2>Prioritized Recommendations</h2>
  ".
    destruct (forallb _ (pages report)); reflexivity.
  - unfold all_findings. induction (pages report) as [|p ps IH]; [reflexivity|].
    cbn [List.flat_map List.map list_sum]. rewrite length_app, length_map, IH. reflexivity.
  - unfold recommendation_items. destruct (all_findings report) as [|[p f] l]; [congruence|].
    intros _. cbn [List.map fst snd]. rewrite concat_empty_cons. discriminate.
Qed.

Example two_page_report_items :
  length (all_findings two_page_report) = 5%nat /\
  Str.includes (renderHtmlReport two_page_report) placeholder = false /\
  Str.includes (renderHtmlReport {| generatedAt := ""; pages := [] |})
               ("<tbody></tbody>") = true /\
  Str.includes (renderHtmlReport {| generatedAt := ""; pages := [unmeasured_page] |})
               ("<ul>" ++ placeholder ++ "</ul>") = true.
Proof. vm_compute. repeat split. Qed.

(** X12. In a row of the sheet, [key_findings] names the first two
    findings of the page and no more; for findings that come from the
    rule engine these are the first two rules that fire, so the most
    severe ones, joined by " | " without a trailing separator. *)
Theorem key_findings_first_two_rules
    (report : AuditReport) (p : PageRecord) (m : ScoreReport) (s : ScanResult) :
  findings p = prioritizeFindings m s ->
  Sheet.key_findings (sheet_row report p) =
    String.concat " | "
      (List.map (fun r => tag (fst (fst r)) (snd (fst r)))
                (List.firstn 2 (List.filter (fun r => snd r m s) rules))).
Proof.
  intros Hf. unfold sheet_row; cbn [Sheet.key_findings]. rewrite Hf.
  unfold rules; cbn [List.filter snd]. rule_cases m s; reflexivity.
Qed.

Lemma key_findings_first_two_rules_witness :
  Sheet.key_findings (sheet_row two_page_report heavy_page) =
    String.concat " | "
      (List.map (fun r => tag (fst (fst r)) (snd (fst r)))
                (List.firstn 2 (List.filter (fun r => snd r slow_report heavy_scan) rules))).
Proof.
  apply (key_findings_first_two_rules two_page_report heavy_page slow_report heavy_scan).
  reflexivity.
Defined.

Example key_findings_of_heavy_page :
  Sheet.key_findings (sheet_row two_page_report heavy_page) = "[HIGH] Performance | [MED] UX / Layout" /\
  Sheet.key_findings (sheet_row two_page_report unmeasured_page) = "".
Proof. split; reflexivity. Qed.

(** ** The run, case by case *)

Lemma last_snoc_event (l : list Event) (e : Event) : last (l ++ [e]) = Some e.
Proof. apply last_snoc. Qed.

Lemma posted_sink (cfg : Config) (w : World) (rows : list Sheet.Row) :
  posted (sink_events cfg w rows) =
    if Str.is_empty (GOOGLE_SHEETS_WEBHOOK_URL cfg) then []
    else [(GOOGLE_SHEETS_WEBHOOK_URL cfg, JsonRows rows)].
Proof.
  unfold sink_events. destruct (Str.is_empty _); [reflexivity|].
  destruct (post w); reflexivity.
Qed.

(** A loop that ends without an error has gone through every page. *)
Lemma loop_result_none (w : World) (xs : list string) (i : nat) :
  snd (loop_result w i xs) = None ->
  fst (fst (loop_result w i xs)) = xs /\
  List.map url (snd (fst (loop_result w i xs))) = xs /\
  forall j u, xs !! j = Some u -> page_fails w (i + j) u = false.
Proof.
  revert i. induction xs as [|x xs IH]; intros i.
  - intros _. repeat split. intros j u H. discriminate H.
  - cbn [loop_result]. destruct (page_record w i x) as [p|e] eqn:Hp; [|discriminate].
    specialize (IH (S i)).
    destruct (loop_result w (S i) xs) as [[urls recs] err]. cbn [fst snd] in *.
    intros He. destruct (IH He) as (Hu & Hr & Hall).
    cbn [List.map]. rewrite (page_record_url _ _ _ _ Hp), Hu, Hr.
    split; [reflexivity|]. split; [reflexivity|].
    intros [|j] u Hj.
    + injection Hj as <-. rewrite Nat.add_0_r, <- page_record_fails, Hp. reflexivity.
    + replace (i + S j)%nat with (S i + j)%nat by lia. apply Hall. exact Hj.
Qed.

(** The record at a position is the record of the page at that position. *)
Lemma loop_result_records (w : World) (xs : list string) (i k : nat) (p : PageRecord) :
  snd (fst (loop_result w i xs)) !! k = Some p ->
  exists u, xs !! k = Some u /\ page_record w (i + k) u = Ok p.
Proof.
  revert i k. induction xs as [|x xs IH]; intros i k; [intros H; discriminate H|].
  cbn [loop_result]. destruct (page_record w i x) as [q|e] eqn:Hq.
  - specialize (IH (S i)).
    destruct (loop_result w (S i) xs) as [[urls recs] err]. cbn [fst snd] in *.
    destruct k as [|k].
    + intros [= <-]. exists x. rewrite Nat.add_0_r. split; [reflexivity | exact Hq].
    + intros H. destruct (IH k H) as (u & Hu & Hp). exists u.
      replace (i + S k)%nat with (S i + k)%nat by lia. split; assumption.
  - intros H. discriminate H.
Qed.

Ltac trace_simpl :=
  cbn [final exit_code add st_pages st_trace];
  rewrite ?last_snoc_event; autorewrite with trace;
  cbn [written started posted List.flat_map app]; rewrite ?app_nil_r.

(** The records and the files of any run, from the result of the loop. *)
Lemma script_cases (cfg : Config) (w : World) :
  (exists e, mkdir w 0 = Throw e /\
     script cfg w = {| final := {| st_pages := []; st_trace := [] |}; exit_code := 1 |}) \/
  (exists urls recs,
     mkdir w 0 = Ok tt /\
     fst (loop_result w 0 (PAGES cfg)) = (urls, recs) /\
     st_pages (final (script cfg w)) = recs /\
     started (st_trace (final (script cfg w))) = urls /\
     let report := {| generatedAt := nowISO w; pages := recs |} in
     ((exists e, exit_code (script cfg w) = 1 /\
         last (st_trace (final (script cfg w))) = Some (ConsoleError [e]) /\
         posted (st_trace (final (script cfg w))) = [] /\
         (snd (loop_result w 0 (PAGES cfg)) = Some e /\
            written (st_trace (final (script cfg w))) = [] \/
          snd (loop_result w 0 (PAGES cfg)) = None /\ mkdir w 1 = Throw e /\
            written (st_trace (final (script cfg w))) = [] \/
          snd (loop_result w 0 (PAGES cfg)) = None /\ mkdir w 1 = Ok tt /\
            write w json_path = Throw e /\
            written (st_trace (final (script cfg w))) = [] \/
          snd (loop_result w 0 (PAGES cfg)) = None /\ mkdir w 1 = Ok tt /\
            write w json_path = Ok tt /\ write w html_path = Throw e /\
            written (st_trace (final (script cfg w))) = [(json_path, JsonReport report)])) \/
      (exit_code (script cfg w) = 0 /\
       snd (loop_result w 0 (PAGES cfg)) = None /\
       mkdir w 1 = Ok tt /\ write w json_path = Ok tt /\ write w html_path = Ok tt /\
       last (st_trace (final (script cfg w))) = Some done /\
       written (st_trace (final (script cfg w))) =
         [(json_path, JsonReport report); (html_path, Html (renderHtmlReport report))] /\
       posted (st_trace (final (script cfg w))) =
         if Str.is_empty (GOOGLE_SHEETS_WEBHOOK_URL cfg) then []
         else [(GOOGLE_SHEETS_WEBHOOK_URL cfg,
                JsonRows (List.map (sheet_row report) recs))]))).
Proof.
  rewrite script_eval. destruct (mkdir w 0) as [[]|e0]; [right | left; eauto].
  rewrite main_eval, prepare_eval.
  destruct (loop_result w 0 (PAGES cfg)) as [[urls recs] err].
  exists urls, recs. cbn [fst snd]. split; [reflexivity|].
  destruct err as [e|].
  { trace_simpl. do 3 (split; [reflexivity|]).
    left. exists e. do 3 (split; [reflexivity|]). left. split; reflexivity. }
  destruct (mkdir w 1) as [[]|e].
  2:{ trace_simpl. do 3 (split; [reflexivity|]).
      left. exists e. do 3 (split; [reflexivity|]). right; left. repeat split. }
  destruct (write w json_path) as [[]|e].
  2:{ trace_simpl. do 3 (split; [reflexivity|]).
      left. exists e. do 3 (split; [reflexivity|]). right; right; left. repeat split. }
  destruct (write w html_path) as [[]|e].
  2:{ trace_simpl. do 3 (split; [reflexivity|]).
      left. exists e. do 3 (split; [reflexivity|]). right; right; right. repeat split. }
  cbn [final exit_code add st_pages st_trace]. rewrite last_snoc_event.
  autorewrite with trace. rewrite posted_sink.
  destruct (sink_events_quiet w cfg
              (List.map (sheet_row {| generatedAt := nowISO w; pages := [] ++ recs |})
                        ([] ++ recs))) as [-> ->].
  cbn [written started posted List.flat_map app]. rewrite ?app_nil_r.
  do 3 (split; [reflexivity|]). right. do 7 (split; [reflexivity|]). reflexivity.
Qed.




Lemma page_record_parts (w : World) (i : nat) (u : string) (p : PageRecord) :
  page_record w i u = Ok p ->
  exists m d html,
    runLighthouse w i u "mobile" = Ok m /\ mobile p = summary m /\
    runLighthouse w i u "desktop" = Ok d /\ desktop p = summary d /\
    fetch_text w i u = Ok html /\ scan p = scanDocument (JSDOM w html u) /\
    findings p = prioritizeFindings (mobile p) (scan p).
Proof.
  unfold page_record, Promise_all, obind.
  destruct (runLighthouse w i u "mobile") as [m|]; [|discriminate].
  destruct (runLighthouse w i u "desktop") as [d|]; [|destruct (scanPage w i u); discriminate].
  destruct (scanPage w i u) as [sc|] eqn:Hs; [|discriminate].
  intros [= <-]. apply scanPage_scans in Hs as (html & Hf & ->).
  exists m, d, html. cbn [mobile desktop scan findings].
  destruct (summary m) as [sm mm], (summary d) as [sd md]. cbn [scores metrics].
  repeat split. exact Hf.
Qed.

(** X15. In any run, finished or aborted, the record at position k of the
    report is the record of the k-th configured URL: its mobile and
    desktop parts are what the two scorer calls for that URL returned,
    its scan is the scan of the document fetched from that URL, and its
    findings are those of its own mobile report and scan (the desktop
    report plays no part); the scan keeps at most 40 image records and
    its counts never exceed its image count. *)
Theorem records_are_positional (cfg : Config) (w : World) (k : nat) (p : PageRecord) :
  st_pages (final (script cfg w)) !! k = Some p ->
  PAGES cfg !! k = Some (url p) /\
  (exists m d html,
     runLighthouse w k (url p) "mobile" = Ok m /\ mobile p = summary m /\
     runLighthouse w k (url p) "desktop" = Ok d /\ desktop p = summary d /\
     fetch_text w k (url p) = Ok html /\ scan p = scanDocument (JSDOM w html (url p))) /\
  findings p = prioritizeFindings (mobile p) (scan p) /\
  (missingAltCount (scan p) <= imageCount (scan p))%nat /\
  (lazyCount (scan p) <= imageCount (scan p))%nat /\
  (length (images (scan p)) <= 40)%nat.
Proof.
  destruct (script_cases cfg w) as [(e & _ & ->) | (urls & recs & _ & Hl & -> & _)].
  { intros H. discriminate H. }
  intros Hk.
  pose proof (loop_result_records w (PAGES cfg) 0 k p) as Hrec.
  rewrite Hl in Hrec. cbn [fst snd] in Hrec.
  destruct (Hrec Hk) as (u & Hu & Hp).
  pose proof (page_record_url _ _ _ _ Hp) as Hurl. subst u.
  destruct (page_record_parts _ _ _ _ Hp) as (m & d & html & Hm & Em & Hd & Ed & Hf & Es & Ef).
  split; [exact Hu|]. split; [exists m, d, html; repeat split; assumption|].
  split; [exact Ef|]. rewrite Es.
  unfold scanDocument; cbn [missingAltCount lazyCount imageCount images].
  repeat split; try apply filter_length_le.
  rewrite length_firstn. lia.
Qed.

Lemma records_are_positional_witness :
  PAGES three_pages !! 0%nat = Some (url first_record) /\
  (exists m d html,
     runLighthouse second_fetch_fails 0 (url first_record) "mobile" = Ok m /\
     mobile first_record = summary m /\
     runLighthouse second_fetch_fails 0 (url first_record) "desktop" = Ok d /\
     desktop first_record = summary d /\
     fetch_text second_fetch_fails 0 (url first_record) = Ok html /\
     scan first_record = scanDocument (JSDOM second_fetch_fails html (url first_record))) /\
  findings first_record = prioritizeFindings (mobile first_record) (scan first_record) /\
  (missingAltCount (scan first_record) <= imageCount (scan first_record))%nat /\
  (lazyCount (scan first_record) <= imageCount (scan first_record))%nat /\
  (length (images (scan first_record)) <= 40)%nat.
Proof.
  apply (records_are_positional three_pages second_fetch_fails 0 first_record).
  vm_compute. reflexivity.
Defined.

(** X16. A report file that cannot be written aborts the run after all
    pages were audited: if the JSON file fails nothing is written; if the
    HTML file fails the JSON file is already there, alone.  Either way
    the exit code is 1, the error is logged and nothing is posted to the
    webhook. *)
Theorem failed_write_leaves_partial_output (cfg : Config) (w : World) :
  (forall j u, PAGES cfg !! j = Some u -> page_fails w j u = false) ->
  mkdir w 0 = Ok tt -> mkdir w 1 = Ok tt ->
  List.map url (st_pages (final (script cfg w))) = PAGES cfg /\
  (forall e, write w json_path = Throw e ->
     exit_code (script cfg w) = 1 /\
     written (st_trace (final (script cfg w))) = [] /\
     posted (st_trace (final (script cfg w))) = [] /\
     last (st_trace (final (script cfg w))) = Some (ConsoleError [e])) /\
  (forall e, write w json_path = Ok tt -> write w html_path = Throw e ->
     exit_code (script cfg w) = 1 /\
     written (st_trace (final (script cfg w))) =
       [(json_path, JsonReport (report_of w (script cfg w)))] /\
     posted (st_trace (final (script cfg w))) = [] /\
     last (st_trace (final (script cfg w))) = Some (ConsoleError [e])).
Proof.
  intros Hall Hm0 Hm1. unfold report_of.
  destruct (loop_result_success w (PAGES cfg) 0 Hall) as (Hu & Hr & He).
  destruct (script_cases cfg w) as [(e & Hm & _) | (urls & recs & _ & Hl & -> & _ & H)];
    [congruence|].
  rewrite Hl in Hr. cbn [fst snd] in Hr. split; [exact Hr|].
  cbv zeta in H.
  destruct H as [(e' & -> & -> & -> & Hw) | (_ & _ & _ & Hj & Hh & _)].
  - split; intros e Hje.
    + destruct Hw as [[He' _] | [(_ & Hx & _) | [(_ & _ & Hx & ->) | (_ & _ & Hx & _)]]];
        try congruence.
      assert (e' = e) by congruence. subst e'. repeat split.
    + intros Hhe.
      destruct Hw as [[He' _] | [(_ & Hx & _) | [(_ & _ & Hx & _) | (_ & _ & _ & Hx & ->)]]];
        try congruence.
      assert (e' = e) by congruence. subst e'. repeat split.
  - split; intros e Hje; [congruence | intros Hhe; congruence].
Qed.

Lemma calm_pages_succeed (w : World) :
  launch w = launch calm -> lighthouse w = lighthouse calm -> kill w = kill calm ->
  fetch_text w = fetch_text calm ->
  forall j u, page_fails w j u = false.
Proof.
  intros Hl Hh Hk Hf j u. unfold page_fails, runLighthouse, scanPage.
  rewrite Hl, Hh, Hk, Hf. vm_compute. reflexivity.
Qed.

Lemma failed_write_leaves_partial_output_witness :
  List.map url (st_pages (final (script three_pages html_write_fails))) = PAGES three_pages /\
  (forall e, write html_write_fails json_path = Throw e ->
     exit_code (script three_pages html_write_fails) = 1 /\
     written (st_trace (final (script three_pages html_write_fails))) = [] /\
     posted (st_trace (final (script three_pages html_write_fails))) = [] /\
     last (st_trace (final (script three_pages html_write_fails))) = Some (ConsoleError [e])) /\
  (forall e, write html_write_fails json_path = Ok tt ->
     write html_write_fails html_path = Throw e ->
     exit_code (script three_pages html_write_fails) = 1 /\
     written (st_trace (final (script three_pages html_write_fails))) =
       [(json_path, JsonReport (report_of html_write_fails (script three_pages html_write_fails)))] /\
     posted (st_trace (final (script three_pages html_write_fails))) = [] /\
     last (st_trace (final (script three_pages html_write_fails))) = Some (ConsoleError [e])).
Proof.
  apply (failed_write_leaves_partial_output three_pages html_write_fails).
  - intros j u _. apply calm_pages_succeed; reflexivity.
  - reflexivity.
  - reflexivity.
Defined.

Example html_write_failure_trace :
  List.map fst (written (st_trace (final (script three_pages html_write_fails)))) =
    ["out/gritaudit-report.json"] /\
  last (st_trace (final (script three_pages html_write_fails))) = Some (ConsoleError ["ENOSPC"]).
Proof. vm_compute. split; reflexivity. Qed.


(** The error [Promise.all] rejects with is the error of one of the three
    calls. *)
Lemma page_record_error (w : World) (i : nat) (u : string) (e : Error) :
  page_record w i u = Throw e -> In e (call_errors w i u).
Proof.
  unfold page_record, call_errors, Promise_all, obind.
  destruct (runLighthouse w i u "mobile"), (runLighthouse w i u "desktop"),
           (scanPage w i u); intros H; try discriminate H; injection H as <-;
    cbn [rejection app List.map snd In];
    repeat match goal with
           | |- context [if ?c then _ else _] => destruct c
           end; tauto.
Qed.

Lemma loop_first_failure (w : World) (xs : list string) (i j : nat) (u : string) (e : Error) :
  xs !! j = Some u -> page_record w (i + j) u = Throw e ->
  (forall k v, (k < j)%nat -> xs !! k = Some v -> page_fails w (i + k) v = false) ->
  fst (fst (loop_result w i xs)) = take (S j) xs /\
  List.map url (snd (fst (loop_result w i xs))) = take j xs /\
  snd (loop_result w i xs) = Some e.
Proof.
  revert i j. induction xs as [|x xs IH]; intros i j Hj He Hbefore; [discriminate Hj|].
  cbn [loop_result]. destruct j as [|j].
  - injection Hj as ->. rewrite Nat.add_0_r in He. rewrite He. repeat split.
  - pose proof (Hbefore 0%nat x (Nat.lt_0_succ j) eq_refl) as H0.
    rewrite Nat.add_0_r, <- page_record_fails in H0.
    destruct (page_record w i x) as [p|] eqn:Hp; [|discriminate H0].
    replace (i + S j)%nat with (S i + j)%nat in He by lia.
    destruct (IH (S i) j Hj He) as (Hu & Hr & Herr).
    { intros k v Hk Hv. replace (S i + k)%nat with (i + S k)%nat by lia.
      apply (Hbefore (S k) v); [lia | exact Hv]. }
    destruct (loop_result w (S i) xs) as [[urls recs] err]. cbn [fst snd] in *.
    cbn [List.map take]. rewrite (page_record_url _ _ _ _ Hp), Hu, Hr, Herr.
    repeat split.
Qed.

(** X18. When the first page with a failing call is page j, the run
    audits the pages up to j and no other, keeps the records of the j
    pages before it, writes nothing, and logs, as its last line, the
    error of one of the calls made for page j; the exit code is 1. *)
Theorem run_stops_at_first_failure (cfg : Config) (w : World) (j : nat) (u : string) :
  mkdir w 0 = Ok tt ->
  PAGES cfg !! j = Some u -> page_fails w j u = true ->
  (forall k v, (k < j)%nat -> PAGES cfg !! k = Some v -> page_fails w k v = false) ->
  started (st_trace (final (script cfg w))) = take (S j) (PAGES cfg) /\
  List.map url (st_pages (final (script cfg w))) = take j (PAGES cfg) /\
  written (st_trace (final (script cfg w))) = [] /\
  exit_code (script cfg w) = 1 /\
  exists e, last (st_trace (final (script cfg w))) = Some (ConsoleError [e]) /\
            In e (call_errors w j u).
Proof.
  intros Hm Hj Hf Hbefore.
  rewrite <- page_record_fails in Hf.
  destruct (page_record w j u) as [|e] eqn:He; [discriminate Hf|].
  destruct (loop_first_failure w (PAGES cfg) 0 j u e Hj He Hbefore) as (Hu & Hr & Herr).
  destruct (script_cases cfg w) as [(e0 & Hm0 & _) | (urls & recs & _ & Hl & -> & -> & H)];
    [congruence|].
  rewrite Hl in Hu, Hr. cbn [fst snd] in Hu, Hr.
  split; [exact Hu|]. split; [exact Hr|].
  cbv zeta in H. destruct H as [(e' & -> & -> & _ & Hw) | (_ & Hnone & _)]; [|congruence].
  destruct Hw as [[He' ->] | [(Hx & _) | [(Hx & _) | (Hx & _)]]]; try congruence.
  split; [reflexivity|]. split; [reflexivity|].
  exists e'. split; [reflexivity|].
  assert (e' = e) by congruence. subst e'. apply (page_record_error _ _ _ _ He).
Qed.

Lemma run_stops_at_first_failure_witness :
  started (st_trace (final (script three_pages second_fetch_fails))) =
    take 2 (PAGES three_pages) /\
  List.map url (st_pages (final (script three_pages second_fetch_fails))) =
    take 1 (PAGES three_pages) /\
  written (st_trace (final (script three_pages second_fetch_fails))) = [] /\
  exit_code (script three_pages second_fetch_fails) = 1 /\
  exists e, last (st_trace (final (script three_pages second_fetch_fails))) =
              Some (ConsoleError [e]) /\
            In e (call_errors second_fetch_fails 1 "https://gritarmy.com/collections/socks").
Proof.
  apply (run_stops_at_first_failure three_pages second_fetch_fails 1
           "https://gritarmy.com/collections/socks").
  - reflexivity.
  - reflexivity.
  - vm_compute. reflexivity.
  - intros [|k] v Hk; [|lia]. intros [= <-]. vm_compute. reflexivity.
Defined.

Lemma page_record_settles (w : World) (t : nat -> nat -> nat) (i : nat) (u : string) :
  page_record (with_settles w t) i u = page_record w i u \/
  exists e e', page_record (with_settles w t) i u = Throw e /\ page_record w i u = Throw e'.
Proof.
  unfold page_record, Promise_all, obind.
  change (runLighthouse (with_settles w t) i u) with (runLighthouse w i u).
  change (scanPage (with_settles w t) i u) with (scanPage w i u).
  destruct (runLighthouse w i u "mobile"), (runLighthouse w i u "desktop"),
           (scanPage w i u); first [left; reflexivity | right; eauto].
Qed.

Lemma loop_result_settles (w : World) (t : nat -> nat -> nat) (xs : list string) (i : nat) :
  fst (loop_result (with_settles w t) i xs) = fst (loop_result w i xs) /\
  (snd (loop_result (with_settles w t) i xs) = None <-> snd (loop_result w i xs) = None).
Proof.
  revert i. induction xs as [|x xs IH]; intros i; [split; reflexivity|].
  cbn [loop_result].
  destruct (page_record_settles w t i x) as [-> | (e & e' & -> & ->)].
  - destruct (page_record w i x) as [p|e]; [|split; reflexivity].
    destruct (IH (S i)) as [Hf Hs].
    destruct (loop_result (with_settles w t) (S i) xs) as [[urls recs] err].
    destruct (loop_result w (S i) xs) as [[urls' recs'] err'].
    cbn [fst snd] in *. injection Hf as -> ->. split; [reflexivity | exact Hs].
  - split; [reflexivity|]. split; discriminate.
Qed.

(** X19. The order in which the three calls of a page come back changes
    nothing but the error that is logged when several of them fail: the
    exit code, the records, the files written, the request posted and
    the pages started are the same for any timing, and a run that ends
    with exit code 0 is the same run altogether. *)
Theorem timing_changes_only_the_logged_error
    (cfg : Config) (w : World) (t : nat -> nat -> nat) :
  exit_code (script cfg (with_settles w t)) = exit_code (script cfg w) /\
  st_pages (final (script cfg (with_settles w t))) = st_pages (final (script cfg w)) /\
  written (st_trace (final (script cfg (with_settles w t)))) =
    written (st_trace (final (script cfg w))) /\
  posted (st_trace (final (script cfg (with_settles w t)))) =
    posted (st_trace (final (script cfg w))) /\
  started (st_trace (final (script cfg (with_settles w t)))) =
    started (st_trace (final (script cfg w))) /\
  (exit_code (script cfg w) = 0 -> script cfg (with_settles w t) = script cfg w).
Proof.
  rewrite !script_eval. cbn [mkdir with_settles].
  destruct (mkdir w 0) as [[]|e0]; [|repeat split].
  rewrite !main_eval, !prepare_eval.
  destruct (loop_result_settles w t (PAGES cfg) 0) as [Hf Hs].
  destruct (loop_result (with_settles w t) 0 (PAGES cfg)) as [[urls recs] err].
  destruct (loop_result w 0 (PAGES cfg)) as [[urls' recs'] err'].
  cbn [fst snd] in Hf, Hs. injection Hf as -> ->.
  cbn [mkdir write nowISO with_settles].
  change (sink_events cfg (with_settles w t)) with (sink_events cfg w).
  destruct err as [e|], err' as [e'|];
    try (destruct Hs as [H1 H2]; first [discriminate (H1 eq_refl) | discriminate (H2 eq_refl)]).
  - trace_simpl. repeat split. intros H; discriminate H.
  - destruct (mkdir w 1) as [[]|e]; [|repeat split; intros H; discriminate H].
    destruct (write w json_path) as [[]|e]; [|repeat split; intros H; discriminate H].
    destruct (write w html_path) as [[]|e]; repeat split; intros H; discriminate H.
Qed.
